(** * presto-query-predictor: the data transformer

    A shallow embedding of
    [query_predictor/predictor/data_transformer.py]: the class
    [DataTransformer], its dispatcher [transform] and the predefined
    transformers it resolves by name.

    The pandas data frame is the tabular collaborator of the module; it is
    modelled as a header of column labels and a list of rows of cells.
    Python exceptions are results [Raise e]; the methods of the class are
    computations in a state-and-exception monad over the instance. *)

From Stdlib Require Import ZArith String Ascii List Lia Bool.
From stdpp Require Import base tactics option numbers list strings.
Import ListNotations.

Local Open Scope string_scope.
Local Open Scope list_scope.

(* ===================================================================== *)
(** ** Python values, exceptions and strings                              *)
(* ===================================================================== *)

(** A cell of a data frame: a Python string, a number or a missing value
    ([NaN] / [None]). *)
Inductive value : Type :=
  | VStr (s : string)
  | VInt (z : Z)
  | VNaN.

#[global] Instance value_eq_dec : EqDecision value.
Proof. solve_decision. Defined.

(** The key of [DataFrame.__getitem__]: a single label, or a tuple of
    labels, which is what the expression [df[a, b, c]] passes. *)
Inductive key : Type :=
  | KStr (s : string)
  | KTuple (l : list string).

(** The exceptions that can leave the module. [DataTransformerException]
    is the only one the module raises itself (line 84); the others are
    raised by Python, by pandas or by a collaborator. *)
Inductive exn : Type :=
  | DataTransformerException (msg : string)
  | KeyError (k : key)
  | ValueError (msg : string)
  | TypeError (msg : string)
  | AttributeError (msg : string)
  | RecursionError
  | External (msg : string).

Inductive result (A : Type) : Type :=
  | Ok (a : A)
  | Raise (e : exn).
Arguments Ok {A} a.
Arguments Raise {A} e.

(* ===================================================================== *)
(** ** The data frame                                                     *)
(* ===================================================================== *)

Module Pandas.

(** A frame: the column labels in order, and the rows; the cell of a row
    under the i-th label is its i-th element. *)
Record DataFrame : Type := mkDF {
  columns : list string;
  rows : list (list value)
}.

(** [Index.get_loc]: the position of a label in the header. *)
Fixpoint get_loc (c : string) (cols : list string) : option nat :=
  match cols with
  | [] => None
  | c' :: cs => if String.eqb c c' then Some 0%nat else S <$> get_loc c cs
  end.

(** [c in df.columns] *)
Definition contains (c : string) (df : DataFrame) : bool :=
  match get_loc c (columns df) with Some _ => true | None => false end.

Definition cell (i : nat) (r : list value) : value := default VNaN (r !! i).


(** [df[a, b, c]], which is [df[(a, b, c)]]: a tuple is one key, looked
    up in the header as a single label. The header holds plain strings,
    none of which equals a tuple, so the lookup raises [KeyError] of the
    tuple. *)
Definition getitem_tuple (t : list string) (df : DataFrame) : result DataFrame :=
  Raise (KeyError (KTuple t)).

(** [df[[c1, ..., cn]]]: the frame narrowed to the listed columns, in the
    listed order; [KeyError] on the first label that is missing. This is
    the selection by a list, which the source does not use. *)
Fixpoint locs (cs : list string) (cols : list string) : result (list nat) :=
  match cs with
  | [] => Ok []
  | c :: cs' =>
      match get_loc c cols with
      | None => Raise (KeyError (KStr c))
      | Some i =>
          match locs cs' cols with
          | Ok ixs => Ok (i :: ixs)
          | Raise e => Raise e
          end
      end
  end.

Definition getitem_list (cs : list string) (df : DataFrame) : result DataFrame :=
  match locs cs (columns df) with
  | Ok ixs => Ok (mkDF cs ((fun r => (fun i => cell i r) <$> ixs) <$> rows df))
  | Raise e => Raise e
  end.

(** [series == v], element by element. *)
Definition series_eq (s : list value) (v : value) : list bool :=
  (fun x => bool_decide (x = v)) <$> s.

(** Selection of the positions a boolean mask marks. *)
Fixpoint compress {A : Type} (mask : list bool) (l : list A) : list A :=
  match mask, l with
  | b :: mask', x :: l' => if b then x :: compress mask' l' else compress mask' l'
  | _, _ => []
  end.

(** [df[mask]]: the rows the mask marks, in their order; same header. *)
Definition getitem_mask (mask : list bool) (df : DataFrame) : DataFrame :=
  mkDF (columns df) (compress mask (rows df)).

(** [df[c] = series]: an existing column is overwritten in place, a new
    label is appended as the last column. *)
Definition setitem (c : string) (s : list value) (df : DataFrame) : DataFrame :=
  match get_loc c (columns df) with
  | Some i => mkDF (columns df) (zip_with (fun r v => <[i:=v]> r) (rows df) s)
  | None => mkDF (columns df ++ [c]) (zip_with (fun r v => r ++ [v]) (rows df) s)
  end.

(** What [df[c]] gives: a series when the label occurs once in the header,
    a frame of the columns so labelled when it occurs more than once. *)
Inductive selection : Type :=
  | Series (s : list value)
  | Frame (df : DataFrame).

(** [df[c]] for a single label [c]. The label is looked up in the header:
    [KeyError] when it is missing; the column as a series when it occurs
    once (that is, not again after its first position); otherwise the
    frame of all the columns labelled [c]. *)
Definition subscript (c : string) (df : DataFrame) : result selection :=
  match get_loc c (columns df) with
  | None => Raise (KeyError (KStr c))
  | Some i =>
      match get_loc c (drop (S i) (columns df)) with
      | None => Ok (Series (cell i <$> rows df))
      | Some _ =>
          let keep := String.eqb c <$> columns df in
          Ok (Frame (mkDF (compress keep (columns df)) (compress keep <$> rows df)))
      end
  end.

(** The result of [selection == v]: one boolean per row for a series, one
    per cell for a frame. *)
Inductive mask : Type :=
  | RowMask (m : list bool)
  | CellMask (m : list (list bool)).

Definition selection_eq (sel : selection) (v : value) : mask :=
  match sel with
  | Series s => RowMask (series_eq s v)
  | Frame f => CellMask ((fun r => series_eq r v) <$> rows f)
  end.

(** [df[m]] for a boolean [m]. A mask of rows selects rows. A mask of
    cells arises here from a duplicated label only; pandas aligns it with
    the frame, and on duplicated labels that raises [ValueError]. *)
Definition getitem_bool (m : mask) (df : DataFrame) : result DataFrame :=
  match m with
  | RowMask b => Ok (getitem_mask b df)
  | CellMask _ => Raise (ValueError "cannot reindex on an axis with duplicate labels")
  end.

Definition is_str (v : value) : bool :=
  match v with VStr _ => true | _ => false end.

Definition is_int (v : value) : bool :=
  match v with VInt _ => true | _ => false end.

(** The cell-wise effect of [.str.lower()], for [lower] as [str.lower]: a
    string cell is lower-cased, any other cell becomes missing. *)
Definition lower_value (lower : string -> string) (v : value) : value :=
  match v with
  | VStr s => VStr (lower s)
  | _ => VNaN
  end.

Definition str_lower_series (lower : string -> string) (s : list value) : list value :=
  lower_value lower <$> s.

(** Whether a series has the [.str] accessor. pandas decides it by what
    the series holds: a series that holds a string has the accessor, a
    series that holds numbers and no string has not. For a series that
    holds neither (no cell at all, or missing values only) pandas goes by
    the dtype of the column, object or float, which a frame of cells does
    not record: [untyped] is the answer in that case. *)
Definition has_str_accessor (untyped : bool) (s : list value) : bool :=
  existsb is_str s || (untyped && negb (existsb is_int s)).

(** [selection.str.lower()]. A frame has no attribute [str], and a series
    without the accessor raises on [.str]: both are [AttributeError]. On a
    series with the accessor the cells are lower-cased one by one. *)
Definition str_lower_selection (lower : string -> string) (untyped : bool) (sel : selection)
  : result (list value) :=
  match sel with
  | Frame _ => Raise (AttributeError "'DataFrame' object has no attribute 'str'")
  | Series s =>
      if has_str_accessor untyped s
      then Ok (str_lower_series lower s)
      else Raise (AttributeError "Can only use .str accessor with string values!")
  end.

(** The label [c] occurs once in the header and its column holds a
    string: the column is a column of text. *)
Definition text_column (c : string) (df : DataFrame) : bool :=
  match subscript c df with
  | Ok (Series s) => existsb is_str s
  | _ => false
  end.

(** The row handed to a function under [df.apply(f, axis=1)]: a series
    whose index is the header. *)
Definition Row : Type := list (string * value).

Definition row_view (cols : list string) (r : list value) : Row := zip cols r.

Fixpoint row_get (c : string) (r : Row) : option value :=
  match r with
  | [] => None
  | (c', v) :: r' => if String.eqb c c' then Some v else row_get c r'
  end.

Fixpoint map_result {A B : Type} (f : A -> result B) (l : list A) : result (list B) :=
  match l with
  | [] => Ok []
  | x :: l' =>
      match f x with
      | Raise e => Raise e
      | Ok y =>
          match map_result f l' with
          | Raise e => Raise e
          | Ok ys => Ok (y :: ys)
          end
      end
  end.

(** [df.apply(f, axis=1)]: [f] on every row, in order; the first
    exception of [f] leaves the call. *)
Definition apply_rows (f : Row -> result value) (df : DataFrame) : result (list value) :=
  map_result f (row_view (columns df) <$> rows df).

End Pandas.
Import Pandas.

(* ===================================================================== *)
(** ** The instance and its monad                                         *)
(* ===================================================================== *)

(** What the dispatcher invoked, in order: the name of a resolved
    transformer when it is called (line 82), the position of a customized
    function when it is called (line 89). The history is ghost state: no
    method reads it. *)
Inductive event : Type :=
  | Step (name : string)
  | Func (k : nat).

(** The attributes [__init__] sets, and the history. *)
Record DataTransformer : Type := mkT {
  data_frame : DataFrame;
  func_strs : list string;
  funcs : list (DataFrame -> result DataFrame);
  calls : list event
}.

(** A method body: it reads and updates the instance, and returns or
    raises. The instance that is left when an exception escapes is kept. *)
Definition M (A : Type) : Type := DataTransformer -> result A * DataTransformer.

#[global] Instance M_ret : MRet M := fun A a self => (Ok a, self).

#[global] Instance M_bind : MBind M := fun A B k m self =>
  match m self with
  | (Ok a, self') => k a self'
  | (Raise e, self') => (Raise e, self')
  end.

Definition raise {A : Type} (e : exn) : M A := fun self => (Raise e, self).

Definition lift {A : Type} (r : result A) : M A := fun self => (r, self).

Definition get_self : M DataTransformer := fun self => (Ok self, self).

(** [self.data_frame] *)
Definition get_df : M DataFrame := fun self => (Ok (data_frame self), self).

(** [self.data_frame = df] *)
Definition set_df (df : DataFrame) : M unit := fun self =>
  (Ok tt, mkT df (func_strs self) (funcs self) (calls self)).

Definition record (e : event) : M unit := fun self =>
  (Ok tt, mkT (data_frame self) (func_strs self) (funcs self) (calls self ++ [e])).

(** [for x in l: body(x)] *)
Fixpoint for_each {A : Type} (l : list A) (body : A -> M unit) : M unit :=
  match l with
  | [] => mret tt
  | x :: l' => body x ;; for_each l' body
  end.

Definition enumerate {A : Type} (l : list A) : list (nat * A) :=
  zip (seq 0 (length l)) l.

(** The methods the class defines. *)
Inductive method : Type :=
  | m_init
  | m_transform
  | m_create_labels
  | m_create_cpu_time_label
  | m_create_peak_memory_label
  | m_drop_failed_queries
  | m_to_lower_queries
  | m_select_training_columns.

(** An attribute the class inherits from [object]: whether it is truthy,
    and whether calling it without arguments raises [TypeError] (with the
    message) or returns; none of them touches the instance. *)
Record ObjAttr : Type := mkObjAttr {
  oa_truthy : bool;
  oa_call : option string
}.

(** What [getattr(self, name)] can find. *)
Inductive attr : Type :=
  | AttrDataFrame
  | AttrFuncStrs
  | AttrFuncs
  | BoundMethod (m : method)
  | Inherited (o : ObjAttr).

#[global] Instance method_eq_dec : EqDecision method.
Proof. solve_decision. Defined.

#[global] Instance ObjAttr_eq_dec : EqDecision ObjAttr.
Proof. solve_decision. Defined.

#[global] Instance attr_eq_dec : EqDecision attr.
Proof. solve_decision. Defined.

Definition method_of_name (name : string) : option method :=
  if String.eqb name "__init__" then Some m_init
  else if String.eqb name "transform" then Some m_transform
  else if String.eqb name "create_labels" then Some m_create_labels
  else if String.eqb name "create_cpu_time_label" then Some m_create_cpu_time_label
  else if String.eqb name "create_peak_memory_label" then Some m_create_peak_memory_label
  else if String.eqb name "drop_failed_queries" then Some m_drop_failed_queries
  else if String.eqb name "to_lower_queries" then Some m_to_lower_queries
  else if String.eqb name "select_training_columns" then Some m_select_training_columns
  else None.

Definition method_name (m : method) : string :=
  match m with
  | m_init => "__init__"
  | m_transform => "transform"
  | m_create_labels => "create_labels"
  | m_create_cpu_time_label => "create_cpu_time_label"
  | m_create_peak_memory_label => "create_peak_memory_label"
  | m_drop_failed_queries => "drop_failed_queries"
  | m_to_lower_queries => "to_lower_queries"
  | m_select_training_columns => "select_training_columns"
  end.

(** [f"{func_str} is not an available transformer"] *)
Definition not_available (func_str : string) : string :=
  func_str ++ " is not an available transformer".

(* ===================================================================== *)
(** ** A concrete setting                                                 *)
(* ===================================================================== *)

(** The labels and collaborators the examples run with. Modelled from the
    spec: constant.py and label_creator.py are not at hand, so the column
    names are those of a Presto query log, and each label creator buckets
    the numeric metric of the row into a category and raises when the row
    has no such number. Of the attributes of [object], three stand for the
    kinds there are: a [None], a string, a method. *)
Module Sample.

(** Modelled from the spec: the four labels of constant.py, which is not
    at hand; the spec names the columns and not their labels. *)
Definition QUERY_COLUMN : string := "query".
Definition QUERY_STATE_COLUMN : string := "query_state".
Definition CPU_TIME_LABEL : string := "cpu_time_label".
Definition PEAK_MEMORY_LABEL : string := "peak_memory_label".

(** [str.lower] as it acts on ASCII text, the text of the examples: the
    letters A-Z are mapped to a-z and every other character is kept. *)
Definition lower_ascii (c : ascii) : ascii :=
  let n := nat_of_ascii c in
  if (65 <=? n)%nat && (n <=? 90)%nat then ascii_of_nat (n + 32) else c.

Fixpoint str_lower (s : string) : string :=
  match s with
  | EmptyString => EmptyString
  | String c r => String (lower_ascii c) (str_lower r)
  end.

(** The columns of the logs are columns of Python objects. *)
Definition untyped_has_str : bool := true.

Definition CPU_TIME : string := "cpu_time_ms".
Definition PEAK_MEMORY : string := "peak_memory_bytes".

Definition bucket (bound : Z) (z : Z) : value :=
  if (z <? bound)%Z then VInt 0 else VInt 1.

(** Modelled from the spec: [CPUTimeLabelCreator().label] of
    label_creator.py, which is not at hand. Given a row with the numeric
    metric it returns one of a fixed set of categories; without it, it
    raises. *)
Definition cpu_time_label (r : Row) : option value :=
  match row_get CPU_TIME r with
  | Some (VInt z) => Some (bucket 30000 z)
  | _ => None
  end.

(** Modelled from the spec: [PeakMemoryLabelCreator().label], likewise. *)
Definition peak_memory_label (r : Row) : option value :=
  match row_get PEAK_MEMORY r with
  | Some (VInt z) => Some (bucket 1048576 z)
  | _ => None
  end.

Definition object_attr (name : string) : option ObjAttr :=
  if String.eqb name "__weakref__" then Some (mkObjAttr false (Some "'NoneType' object is not callable"))
  else if String.eqb name "__doc__" then Some (mkObjAttr true (Some "'str' object is not callable"))
  else if String.eqb name "__repr__" then Some (mkObjAttr true None)
  else None.

(** Five logged queries: three finished, two failed. *)
Definition log5 : DataFrame :=
  mkDF [ "query_id"; "query"; "query_state"; "cpu_time_ms"; "peak_memory_bytes" ]
       [ [ VStr "q1"; VStr "SELECT * FROM Orders"; VStr "FINISHED"; VInt 1200; VInt 4096 ];
         [ VStr "q2"; VStr "SELECT x FROM"; VStr "FAILED"; VInt 3; VInt 0 ];
         [ VStr "q3"; VStr "Select Count(*) From T"; VStr "FINISHED"; VInt 45000; VInt 2097152 ];
         [ VStr "q4"; VStr "DROP TABLE Missing"; VStr "FAILED"; VInt 7; VInt 128 ];
         [ VStr "q5"; VStr "select a, B from u WHERE C = 'X'"; VStr "FINISHED"; VInt 800; VInt 512 ] ].

(** A log without the peak-memory metric. *)
Definition log_no_memory : DataFrame :=
  mkDF [ "query"; "cpu_time_ms" ]
       [ [ VStr "SELECT 1"; VInt 10 ];
         [ VStr "SELECT 2"; VInt 50000 ] ].

Definition new (df : DataFrame) (func_strs : list string)
           (funcs : list (DataFrame -> result DataFrame)) : DataTransformer :=
  mkT df func_strs funcs [].

End Sample.

(* ===================================================================== *)
(** ** The class                                                          *)
(* ===================================================================== *)

Section Transformer.

(** [str.lower] of Python, on the strings of the cells. *)
Variable str_lower : string -> string.

(** Whether pandas gives the [.str] accessor to a column that holds
    neither a string nor a number: it does for a column of dtype object
    and does not for a float column of missing values. The frames here
    record no dtype, so this is left open. *)
Variable untyped_has_str : bool.

(** constant.py, which is not part of the sources at hand: the four
    column labels are parameters. *)
Variables QUERY_COLUMN QUERY_STATE_COLUMN CPU_TIME_LABEL PEAK_MEMORY_LABEL : string.

(** label_creator.py, also not at hand: [CPUTimeLabelCreator().label] and
    [PeakMemoryLabelCreator().label] map a row to its label; [None] is a
    call that raises. *)
Variables cpu_time_label peak_memory_label : Row -> option value.

(** The attributes inherited from [object], by name. *)
Variable object_attr : string -> option ObjAttr.

Definition label_with (who : string) (f : Row -> option value) (r : Row) : result value :=
  match f r with
  | Some v => Ok v
  | None => Raise (External who)
  end.

(** [getattr(self, name, None)], where [None] stands for the default:
    the instance attributes first, then the methods of the class, then
    what [object] provides. *)
Definition getattr (name : string) : option attr :=
  if String.eqb name "data_frame" then Some AttrDataFrame
  else if String.eqb name "func_strs" then Some AttrFuncStrs
  else if String.eqb name "funcs" then Some AttrFuncs
  else match method_of_name name with
       | Some m => Some (BoundMethod m)
       | None => Inherited <$> object_attr name
       end.

(** [bool(a)], the test of [if transformer:]. A bound method is truthy, a
    sequence is truthy when it is not empty, a data frame refuses the
    test with [ValueError]. *)
Definition truth (self : DataTransformer) (a : attr) : result bool :=
  match a with
  | AttrDataFrame => Raise (ValueError "The truth value of a DataFrame is ambiguous")
  | AttrFuncStrs => Ok (negb (bool_decide (func_strs self = [])))
  | AttrFuncs => Ok (match funcs self with [] => false | _ => true end)
  | BoundMethod _ => Ok true
  | Inherited o => Ok (oa_truthy o)
  end.

(** lines 109-119 *)
Definition create_cpu_time_label : M DataFrame :=
  df ← get_df;
  labels ← lift (apply_rows (label_with "CPUTimeLabelCreator.label" cpu_time_label) df);
  set_df (setitem CPU_TIME_LABEL labels df);;
  get_df.

(** lines 121-131 *)
Definition create_peak_memory_label : M DataFrame :=
  df ← get_df;
  labels ← lift (apply_rows (label_with "PeakMemoryLabelCreator.label" peak_memory_label) df);
  set_df (setitem PEAK_MEMORY_LABEL labels df);;
  get_df.

(** lines 98-107 *)
Definition create_labels : M DataFrame :=
  create_cpu_time_label;;
  create_peak_memory_label;;
  get_df.

(** lines 133-143 *)
Definition drop_failed_queries : M DataFrame :=
  df ← get_df;
  (if contains QUERY_STATE_COLUMN df
   then
     state ← lift (subscript QUERY_STATE_COLUMN df);
     finished ← lift (getitem_bool (selection_eq state (VStr "FINISHED")) df);
     set_df finished
   else mret tt);;
  get_df.

(** lines 145-154 *)
Definition to_lower_queries : M DataFrame :=
  df ← get_df;
  queries ← lift (subscript QUERY_COLUMN df);
  lowered ← lift (str_lower_selection str_lower untyped_has_str queries);
  set_df (setitem QUERY_COLUMN lowered df);;
  get_df.

(** lines 156-166: the subscript [self.data_frame[a, b, c]] is one key,
    the tuple [(a, b, c)]. *)
Definition select_training_columns : M DataFrame :=
  df ← get_df;
  selected ← lift (getitem_tuple [QUERY_COLUMN; CPU_TIME_LABEL; PEAK_MEMORY_LABEL] df);
  set_df selected;;
  get_df.

(** [transformer()] of line 82, for each kind of attribute. The bound
    method [transform] re-enters the dispatcher: [rec_transform]. *)
Definition call (rec_transform : M DataFrame) (a : attr) : M unit :=
  match a with
  | AttrDataFrame => raise (TypeError "'DataFrame' object is not callable")
  | AttrFuncStrs | AttrFuncs => raise (TypeError "object is not callable")
  | BoundMethod m_init =>
      raise (TypeError "__init__() missing 1 required positional argument: 'data_frame'")
  | BoundMethod m_transform => rec_transform;; mret tt
  | BoundMethod m_create_labels => create_labels;; mret tt
  | BoundMethod m_create_cpu_time_label => create_cpu_time_label;; mret tt
  | BoundMethod m_create_peak_memory_label => create_peak_memory_label;; mret tt
  | BoundMethod m_drop_failed_queries => drop_failed_queries;; mret tt
  | BoundMethod m_to_lower_queries => to_lower_queries;; mret tt
  | BoundMethod m_select_training_columns => select_training_columns;; mret tt
  | Inherited o =>
      match oa_call o with
      | Some msg => raise (TypeError msg)
      | None => mret tt
      end
  end.

(** The body of the first loop, lines 79-86. *)
Definition dispatch (rec_transform : M DataFrame) (func_str : string) : M unit :=
  self ← get_self;
  match getattr func_str with
  | None => raise (DataTransformerException (not_available func_str))
  | Some transformer =>
      b ← lift (truth self transformer);
      if b : bool
      then record (Step func_str);; call rec_transform transformer
      else raise (DataTransformerException (not_available func_str))
  end.

(** The body of the second loop, line 89. *)
Definition apply_func (kf : nat * (DataFrame -> result DataFrame)) : M unit :=
  df ← get_df;
  record (Func (fst kf));;
  df' ← lift (snd kf df);
  set_df df'.

(** The first loop, lines 78-86. *)
Definition run_predefined (rec_transform : M DataFrame) : M unit :=
  self ← get_self;
  for_each (func_strs self) (dispatch rec_transform).

(** The second loop, lines 88-89. *)
Definition run_customized : M unit :=
  self ← get_self;
  for_each (enumerate (funcs self)) apply_func.

(** lines 69-96. A predefined name may be "transform" itself, so the
    method can call itself. [depth] bounds that nesting: it is the number
    of nested activations of [transform] the interpreter's recursion limit
    still has room for, and where there is room for none the call raises
    [RecursionError]. The calls made inside one activation (logging,
    pandas) are not counted one by one; statements are made for every
    [depth]. The two logging calls have no part in the result. *)
Fixpoint transform (depth : nat) : M DataFrame :=
  match depth with
  | O => raise RecursionError
  | S d =>
      run_predefined (transform d);;
      run_customized;;
      get_df
  end.

(** Whether line 81 lets the name through: the attribute exists and the
    test [if transformer:] does not come out false. *)
Definition resolves (self : DataTransformer) (func_str : string) : bool :=
  match getattr func_str with
  | None => false
  | Some a => match truth self a with Ok false => false | _ => true end
  end.

(** *** Notions the statements use *)

(** [s'] differs from [self] in the frame it holds at most. *)
Definition only_frame (self s' : DataTransformer) : Prop :=
  func_strs s' = func_strs self /\ funcs s' = funcs self /\ calls s' = calls self.

(** From [self] to [s'] the configuration is the same and the dispatcher
    invoked the transformers [steps], in this order, and no customized
    function. *)
Definition steps_only (self s' : DataTransformer) (steps : list string) : Prop :=
  func_strs s' = func_strs self /\ funcs s' = funcs self /\
  calls s' = calls self ++ (Step <$> steps).

(** A [DataTransformerException] among the exceptions names a string that
    line 81 turned down. *)
Definition names_unresolved (self : DataTransformer) (e : exn) : Prop :=
  forall msg, e = DataTransformerException msg ->
    exists t, msg = not_available t /\ resolves self t = false.

(** A re-entered dispatcher cannot return when "transform" is one of the
    configured names: it raises, having invoked transformers only. *)
Definition reentry_fails (rec_transform : M DataFrame) : Prop :=
  forall self, "transform" ∈ func_strs self ->
    exists e steps s', rec_transform self = (Raise e, s') /\
      steps_only self s' steps /\ names_unresolved self e.

(** The outcome of a transformer that assigns once: it returns, with the
    frame possibly replaced, or raises something other than the
    configuration error and leaves the instance as it was. *)
Definition single_assignment (m : M DataFrame) : Prop :=
  forall self r s', m self = (r, s') ->
    only_frame self s' /\
    (forall e, r = Raise e -> s' = self /\ forall msg, e <> DataTransformerException msg).

(** The customized functions composed in order, each on the frame the
    previous one returned; the first exception ends the chain. *)
Fixpoint chain (fs : list (DataFrame -> result DataFrame)) (df : DataFrame) : result DataFrame :=
  match fs with
  | [] => Ok df
  | f :: fs' =>
      match f df with
      | Ok df' => chain fs' df'
      | Raise e => Raise e
      end
  end.


(** What the docstring of [select_training_columns] describes: the
    selection by the list of the three labels. *)
Definition select_training_columns_documented (df : DataFrame) : result DataFrame :=
  getitem_list [QUERY_COLUMN; CPU_TIME_LABEL; PEAK_MEMORY_LABEL] df.

(** Every row of the frame has one cell per column. *)
Definition aligned (df : DataFrame) : Prop :=
  Forall (fun r => length r = length (columns df)) (rows df).

(** From [df] to [df'] no column is dropped or moved (the header is
    extended at its end at most), no row is added, and rows that had one
    cell per column still have. *)
Definition extends (df df' : DataFrame) : Prop :=
  columns df `prefix_of` columns df' /\
  length (rows df') <= length (rows df) /\
  (aligned df -> aligned df').

(* ===================================================================== *)
(** ** Properties                                                         *)
(* ===================================================================== *)

(** *** Strings and frames *)

Lemma lower_value_idem (v : value) :
  (forall s, str_lower (str_lower s) = str_lower s) ->
  lower_value str_lower (lower_value str_lower v) = lower_value str_lower v.
Proof. intros H. destruct v; simpl; [now rewrite H | reflexivity | reflexivity]. Qed.

(** Lower-casing the cells keeps the strings strings and nothing else. *)
Lemma lower_value_is_str (l : list value) :
  existsb is_str (lower_value str_lower <$> l) = existsb is_str l.
Proof.
  induction l as [|v l IH]; [reflexivity|].
  cbn. rewrite <- IH. now destruct v.
Qed.

(** It leaves no number behind. *)
Lemma lower_value_is_int (l : list value) :
  existsb is_int (lower_value str_lower <$> l) = false.
Proof.
  induction l as [|v l IH]; [reflexivity|].
  cbn. rewrite IH. now destruct v.
Qed.

(** A series with the accessor has it after lower-casing. *)
Lemma lowered_has_str_accessor u (l : list value) :
  has_str_accessor u l = true -> has_str_accessor u (lower_value str_lower <$> l) = true.
Proof.
  unfold has_str_accessor. rewrite lower_value_is_str, lower_value_is_int.
  destruct (existsb is_str l); [reflexivity|]. cbn. now destruct u.
Qed.

(** A series that holds a string has the accessor. *)
Lemma text_has_str_accessor u (l : list value) :
  existsb is_str l = true -> has_str_accessor u l = true.
Proof. unfold has_str_accessor. now intros ->. Qed.

Lemma get_loc_lookup c cols i : get_loc c cols = Some i -> cols !! i = Some c.
Proof.
  revert i. induction cols as [|c' cs IH]; intros i; simpl; [discriminate|].
  destruct (String.eqb_spec c c') as [->|Hne].
  - now intros [= <-].
  - destruct (get_loc c cs) as [k|]; simpl; [|discriminate].
    intros [= <-]. simpl. now apply IH.
Qed.

Lemma get_loc_None c cols : get_loc c cols = None <-> c ∉ cols.
Proof.
  induction cols as [|c' cs IH]; simpl.
  - split; [intros _; apply not_elem_of_nil | reflexivity].
  - destruct (String.eqb_spec c c') as [->|Hne].
    + split; [discriminate | intros H; destruct H; left].
    + rewrite not_elem_of_cons. destruct (get_loc c cs); simpl.
      * split; [discriminate | intros [_ H]]. now apply IH in H.
      * split; [intros _; split; [assumption | now apply IH] | reflexivity].
Qed.



(** Selecting by the mask of an element-wise comparison is filtering by
    the comparison. *)
Lemma compress_series_eq i v (l : list (list value)) :
  compress (series_eq (cell i <$> l) v) l = filter (fun r => cell i r = v) l.
Proof.
  induction l as [|r l IH]; [reflexivity|].
  cbn [fmap list_fmap series_eq compress]. unfold series_eq in IH.
  rewrite filter_cons. rewrite IH.
  destruct (decide (cell i r = v)) as [E|E].
  - now rewrite bool_decide_eq_true_2.
  - now rewrite bool_decide_eq_false_2.
Qed.

Lemma zip_with_fmap_r {A B C : Type} (f : A -> B -> C) (g : A -> B) (l : list A) :
  zip_with f l (g <$> l) = (fun x => f x (g x)) <$> l.
Proof. induction l as [|x l IH]; [reflexivity | cbn; f_equal; exact IH]. Qed.

(** *** The single transformers *)

(** A label of a header without repetition does not occur again after
    its position. *)
Lemma get_loc_unique c cols i :
  NoDup cols -> get_loc c cols = Some i -> get_loc c (drop (S i) cols) = None.
Proof.
  intros Hnd Hi. apply get_loc_None. intros Hin.
  apply list_elem_of_lookup in Hin as [k Hk]. rewrite lookup_drop in Hk.
  apply get_loc_lookup in Hi.
  pose proof (NoDup_lookup _ _ _ _ Hnd Hi Hk) as E. lia.
Qed.

(** The outcome of [drop_failed_queries] on every instance: nothing to do
    without the state column, the finished rows when the state label
    occurs once, [ValueError] when it is duplicated. *)
Lemma drop_failed_queries_outcome self :
  let df := data_frame self in
  drop_failed_queries self =
  match get_loc QUERY_STATE_COLUMN (columns df) with
  | None => (Ok df, self)
  | Some i =>
      match get_loc QUERY_STATE_COLUMN (drop (S i) (columns df)) with
      | None =>
          let df' := mkDF (columns df)
                          (filter (fun r => cell i r = VStr "FINISHED") (rows df)) in
          (Ok df', mkT df' (func_strs self) (funcs self) (calls self))
      | Some _ =>
          (Raise (ValueError "cannot reindex on an axis with duplicate labels"), self)
      end
  end.
Proof.
  destruct self as [df fs gs cs]. cbn zeta. cbn [data_frame func_strs funcs calls].
  unfold drop_failed_queries, contains, subscript, getitem_bool, getitem_mask,
    mbind, M_bind, mret, M_ret, get_df, set_df, lift.
  cbn [data_frame func_strs funcs calls].
  destruct (get_loc QUERY_STATE_COLUMN (columns df)) as [i|]; [|reflexivity].
  destruct (get_loc QUERY_STATE_COLUMN (drop (S i) (columns df))); cbn; [reflexivity|].
  now rewrite compress_series_eq.
Qed.

(** What [drop_failed_queries] leaves of a frame with distinct labels, in
    the words of its contract: the rows whose state is "FINISHED" when the
    frame has the state column, the frame itself when it has not. *)
Lemma drop_failed_queries_spec self :
  NoDup (columns (data_frame self)) ->
  let df := data_frame self in
  let df' := match get_loc QUERY_STATE_COLUMN (columns df) with
             | Some i => mkDF (columns df) (filter (fun r => cell i r = VStr "FINISHED") (rows df))
             | None => df
             end in
  drop_failed_queries self = (Ok df', mkT df' (func_strs self) (funcs self) (calls self)).
Proof.
  intros Hnd. rewrite drop_failed_queries_outcome. cbn zeta.
  destruct (get_loc QUERY_STATE_COLUMN (columns (data_frame self))) as [i|] eqn:Hi.
  - now rewrite (get_loc_unique _ _ _ Hnd Hi).
  - now destruct self.
Qed.

(** The outcome of [to_lower_queries] on every instance. *)
Lemma to_lower_queries_outcome self :
  let df := data_frame self in
  to_lower_queries self =
  match get_loc QUERY_COLUMN (columns df) with
  | None => (Raise (KeyError (KStr QUERY_COLUMN)), self)
  | Some i =>
      match get_loc QUERY_COLUMN (drop (S i) (columns df)) with
      | Some _ => (Raise (AttributeError "'DataFrame' object has no attribute 'str'"), self)
      | None =>
          if has_str_accessor untyped_has_str (cell i <$> rows df)
          then
            let df' := mkDF (columns df)
                            ((fun r => <[i := lower_value str_lower (cell i r)]> r) <$> rows df) in
            (Ok df', mkT df' (func_strs self) (funcs self) (calls self))
          else (Raise (AttributeError "Can only use .str accessor with string values!"), self)
      end
  end.
Proof.
  destruct self as [df fs gs cs]. cbn zeta. cbn [data_frame func_strs funcs calls].
  unfold to_lower_queries, subscript, str_lower_selection, setitem, str_lower_series,
    mbind, M_bind, mret, M_ret, get_df, set_df, lift.
  cbn [data_frame func_strs funcs calls].
  destruct (get_loc QUERY_COLUMN (columns df)) as [i|] eqn:Hi; [|reflexivity].
  destruct (get_loc QUERY_COLUMN (drop (S i) (columns df))); [reflexivity|].
  destruct (has_str_accessor untyped_has_str (cell i <$> rows df)); [|reflexivity].
  cbn. rewrite <- list_fmap_compose, zip_with_fmap_r. reflexivity.
Qed.

(** What a column of text is, position by position. *)
Lemma text_column_loc c df :
  text_column c df = true ->
  exists i, get_loc c (columns df) = Some i /\
            get_loc c (drop (S i) (columns df)) = None /\
            existsb is_str (cell i <$> rows df) = true.
Proof.
  unfold text_column, subscript.
  destruct (get_loc c (columns df)) as [i|]; [|discriminate].
  destruct (get_loc c (drop (S i) (columns df))) eqn:Hu; [discriminate|].
  intros H. exists i. split; [reflexivity|]. split; [exact Hu | exact H].
Qed.

Lemma to_lower_queries_accessor self i :
  get_loc QUERY_COLUMN (columns (data_frame self)) = Some i ->
  get_loc QUERY_COLUMN (drop (S i) (columns (data_frame self))) = None ->
  has_str_accessor untyped_has_str (cell i <$> rows (data_frame self)) = true ->
  let df := data_frame self in
  let df' := mkDF (columns df)
                  ((fun r => <[i := lower_value str_lower (cell i r)]> r) <$> rows df) in
  to_lower_queries self = (Ok df', mkT df' (func_strs self) (funcs self) (calls self)).
Proof.
  intros Hi Hu Ht. rewrite to_lower_queries_outcome. cbn zeta. now rewrite Hi, Hu, Ht.
Qed.

Lemma to_lower_queries_spec self i :
  get_loc QUERY_COLUMN (columns (data_frame self)) = Some i ->
  get_loc QUERY_COLUMN (drop (S i) (columns (data_frame self))) = None ->
  existsb is_str (cell i <$> rows (data_frame self)) = true ->
  let df := data_frame self in
  let df' := mkDF (columns df)
                  ((fun r => <[i := lower_value str_lower (cell i r)]> r) <$> rows df) in
  to_lower_queries self = (Ok df', mkT df' (func_strs self) (funcs self) (calls self)).
Proof.
  intros Hi Hu Ht. apply (to_lower_queries_accessor self i Hi Hu).
  now apply text_has_str_accessor.
Qed.

(** *** The monad and the loops *)

Ltac munfold :=
  unfold mbind, M_bind, mret, M_ret, get_df, set_df, get_self, record, lift, raise in *;
  cbn [data_frame func_strs funcs calls fst snd] in *.

Lemma for_each_cons {A : Type} (x : A) l body self :
  for_each (x :: l) body self =
  match body x self with
  | (Ok _, s1) => for_each l body s1
  | (Raise e, s1) => (Raise e, s1)
  end.
Proof. reflexivity. Qed.

Lemma for_each_app {A : Type} (l1 l2 : list A) body self :
  for_each (l1 ++ l2) body self =
  match for_each l1 body self with
  | (Ok _, s1) => for_each l2 body s1
  | (Raise e, s1) => (Raise e, s1)
  end.
Proof.
  revert self. induction l1 as [|x l1 IH]; intros self; [reflexivity|].
  rewrite <- app_comm_cons, !for_each_cons.
  destruct (body x self) as [[[]|e] s1]; [apply IH | reflexivity].
Qed.

Lemma run_predefined_eq rec_transform self :
  run_predefined rec_transform self = for_each (func_strs self) (dispatch rec_transform) self.
Proof. reflexivity. Qed.

Lemma transform_S d self :
  transform (S d) self =
  match run_predefined (transform d) self with
  | (Ok _, s1) =>
      match run_customized s1 with
      | (Ok _, s2) => (Ok (data_frame s2), s2)
      | (Raise e, s2) => (Raise e, s2)
      end
  | (Raise e, s1) => (Raise e, s1)
  end.
Proof.
  cbn [transform]. unfold mbind at 1, M_bind at 1.
  destruct (run_predefined (transform d) self) as [[[]|e] s1]; [|reflexivity].
  unfold mbind, M_bind. destruct (run_customized s1) as [[[]|e] s2]; reflexivity.
Qed.

Lemma resolves_frame self s' t :
  func_strs s' = func_strs self -> funcs s' = funcs self ->
  resolves s' t = resolves self t.
Proof.
  intros H1 H2. unfold resolves. destruct (getattr t) as [[| | | |]|]; cbn; try reflexivity.
  - now rewrite H1.
  - now rewrite H2.
Qed.

Lemma names_unresolved_frame self s' e :
  func_strs s' = func_strs self -> funcs s' = funcs self ->
  names_unresolved s' e -> names_unresolved self e.
Proof.
  intros H1 H2 H msg E. destruct (H msg E) as (t & -> & Ht).
  exists t. split; [reflexivity|]. now rewrite <- (resolves_frame self s' t H1 H2).
Qed.

(** *** What a predefined transformer can change and raise *)

Lemma label_error who f l e :
  map_result (label_with who f) l = Raise e -> e = External who.
Proof.
  induction l as [|x l IH]; cbn; [discriminate|].
  unfold label_with at 1. destruct (f x).
  - destruct (map_result (label_with who f) l); [discriminate|].
    intros [= <-]. now apply IH.
  - now intros [= <-].
Qed.

Lemma create_cpu_time_label_single : single_assignment create_cpu_time_label.
Proof.
  intros [df fs gs cs] r s'. unfold create_cpu_time_label, apply_rows. munfold.
  destruct (map_result _ _) eqn:E; intros [= <- <-]; (split; [now repeat split|]).
  - discriminate.
  - intros e' [= <-]. apply label_error in E as ->. now split.
Qed.

Lemma create_peak_memory_label_single : single_assignment create_peak_memory_label.
Proof.
  intros [df fs gs cs] r s'. unfold create_peak_memory_label, apply_rows. munfold.
  destruct (map_result _ _) eqn:E; intros [= <- <-]; (split; [now repeat split|]).
  - discriminate.
  - intros e' [= <-]. apply label_error in E as ->. now split.
Qed.

Lemma drop_failed_queries_single : single_assignment drop_failed_queries.
Proof.
  intros self r s'. rewrite drop_failed_queries_outcome. cbn zeta.
  destruct (get_loc QUERY_STATE_COLUMN (columns (data_frame self))) as [i|].
  - destruct (get_loc QUERY_STATE_COLUMN (drop (S i) (columns (data_frame self)))).
    + intros [= <- <-]. split; [now repeat split|]. intros e [= <-]. now split.
    + intros [= <- <-]. split; [now repeat split | discriminate].
  - intros [= <- <-]. split; [now repeat split | discriminate].
Qed.

Lemma to_lower_queries_single : single_assignment to_lower_queries.
Proof.
  intros self r s'. rewrite to_lower_queries_outcome. cbn zeta.
  destruct (get_loc QUERY_COLUMN (columns (data_frame self))) as [i|].
  - destruct (get_loc QUERY_COLUMN (drop (S i) (columns (data_frame self)))).
    + intros [= <- <-]. split; [now repeat split|]. intros e [= <-]. now split.
    + destruct (has_str_accessor untyped_has_str (cell i <$> rows (data_frame self))).
      * intros [= <- <-]. split; [now repeat split | discriminate].
      * intros [= <- <-]. split; [now repeat split|]. intros e [= <-]. now split.
  - intros [= <- <-]. split; [now repeat split|]. intros e [= <-]. now split.
Qed.

Lemma select_training_columns_single : single_assignment select_training_columns.
Proof.
  intros [df fs gs cs] r s'. unfold select_training_columns, getitem_tuple. munfold.
  intros [= <- <-]. split; [now repeat split|].
  intros e' [= <-]. now split.
Qed.

(** [create_labels] assigns twice: when it raises, the instance is as it
    was, or holds the frame with the CPU-time labels already assigned. *)
Lemma create_labels_outcome self r s' :
  create_labels self = (r, s') ->
  only_frame self s' /\
  (forall e, r = Raise e ->
     (forall msg, e <> DataTransformerException msg) /\
     (s' = self \/
      exists labels,
        apply_rows (label_with "CPUTimeLabelCreator.label" cpu_time_label) (data_frame self)
          = Ok labels /\
        data_frame s' = setitem CPU_TIME_LABEL labels (data_frame self))).
Proof.
  unfold create_labels. unfold mbind at 1, M_bind at 1.
  destruct (create_cpu_time_label self) as [[df1|e1] s1] eqn:E1.
  - pose proof (create_cpu_time_label_single _ _ _ E1) as [(F1 & F2 & F3) _].
    unfold mbind at 1, M_bind at 1.
    destruct (create_peak_memory_label s1) as [[df2|e2] s2] eqn:E2.
    + pose proof (create_peak_memory_label_single _ _ _ E2) as [(G1 & G2 & G3) _].
      munfold. intros [= <- <-]. split; [|discriminate].
      repeat split; congruence.
    + pose proof (create_peak_memory_label_single _ _ _ E2) as [(G1 & G2 & G3) G].
      destruct (G _ eq_refl) as [-> Hne].
      intros [= <- <-]. split; [now repeat split|].
      intros e [= <-]. split; [exact Hne|]. right.
      revert E1. destruct self as [df fs gs cs]. unfold create_cpu_time_label. munfold.
      destruct (apply_rows _ df) as [labels|e]; intros [= <- <-].
      exists labels. now split.
  - pose proof (create_cpu_time_label_single _ _ _ E1) as [F G].
    destruct (G _ eq_refl) as [-> Hne].
    intros [= <- <-]. split; [exact F|].
    intros e [= <-]. split; [exact Hne | now left].
Qed.

(** *** Resolution and the first loop *)

Lemma method_of_name_transform name :
  method_of_name name = Some m_transform -> name = "transform".
Proof.
  unfold method_of_name.
  repeat match goal with
         | |- context [String.eqb ?a ?b] => destruct (String.eqb_spec a b)
         end; try discriminate; intros _; assumption.
Qed.

Lemma getattr_transform_inv name :
  getattr name = Some (BoundMethod m_transform) -> name = "transform".
Proof.
  unfold getattr.
  repeat match goal with
         | |- context [String.eqb ?a ?b] => destruct (String.eqb a b)
         end; try discriminate.
  destruct (method_of_name name) as [m|] eqn:E.
  - intros [= ->]. now apply method_of_name_transform.
  - destruct (object_attr name); discriminate.
Qed.

Lemma getattr_transform : getattr "transform" = Some (BoundMethod m_transform).
Proof. reflexivity. Qed.

Lemma truth_error self a e :
  truth self a = Raise e -> forall msg, e <> DataTransformerException msg.
Proof. destruct a; cbn; try discriminate. now intros [= <-]. Qed.

(** Calling anything but the bound method [transform]. *)
Lemma call_outcome rec_transform a self r s' :
  a <> BoundMethod m_transform ->
  call rec_transform a self = (r, s') ->
  only_frame self s' /\ forall e, r = Raise e -> forall msg, e <> DataTransformerException msg.
Proof.
  intros Ha.
  assert (Hs : forall m : M DataFrame, single_assignment m ->
            (m;; mret tt) self = (r, s') ->
            only_frame self s' /\
            forall e, r = Raise e -> forall msg, e <> DataTransformerException msg).
  { intros m Hm. unfold mbind, M_bind. destruct (m self) as [[x|e] s1] eqn:E.
    - destruct (Hm _ _ _ E) as [F _]. unfold mret, M_ret. intros [= <- <-].
      split; [exact F | discriminate].
    - destruct (Hm _ _ _ E) as [F G]. intros [= <- <-].
      split; [exact F|]. intros e' [= <-]. now apply (G e eq_refl). }
  destruct a as [| | |m|o]; cbn [call].
  - unfold raise. intros [= <- <-]. split; [now repeat split|]. now intros e [= <-].
  - unfold raise. intros [= <- <-]. split; [now repeat split|]. now intros e [= <-].
  - unfold raise. intros [= <- <-]. split; [now repeat split|]. now intros e [= <-].
  - destruct m.
    + unfold raise. intros [= <- <-]. split; [now repeat split|]. now intros e [= <-].
    + now destruct Ha.
    + unfold mbind, M_bind. destruct (create_labels self) as [[x|e] s1] eqn:E.
      * destruct (create_labels_outcome _ _ _ E) as [F _]. unfold mret, M_ret.
        intros [= <- <-]. split; [exact F | discriminate].
      * destruct (create_labels_outcome _ _ _ E) as [F G]. intros [= <- <-].
        split; [exact F|]. intros e' [= <-]. now apply (G e eq_refl).
    + apply Hs, create_cpu_time_label_single.
    + apply Hs, create_peak_memory_label_single.
    + apply Hs, drop_failed_queries_single.
    + apply Hs, to_lower_queries_single.
    + apply Hs, select_training_columns_single.
  - destruct (oa_call o); unfold raise, mret, M_ret; intros [= <- <-];
      (split; [now repeat split|]); [now intros e [= <-] | discriminate].
Qed.

(** One pass of the body of the first loop. *)
Lemma dispatch_outcome rec_transform (Hrec : reentry_fails rec_transform) x self :
  (x = "transform" -> "transform" ∈ func_strs self) ->
  exists r s', dispatch rec_transform x self = (r, s') /\
    (forall e, r = Raise e ->
       names_unresolved self e /\ exists steps, steps_only self s' steps) /\
    (r = Ok tt ->
       steps_only self s' [x] /\ x <> "transform" /\ resolves self x = true).
Proof.
  intros Hx. unfold dispatch, resolves. unfold mbind at 1, M_bind at 1. unfold get_self at 1.
  destruct (getattr x) as [a|] eqn:Ga.
  2:{ eexists _, _. split; [reflexivity|]. split; [|discriminate].
      intros e [= <-]. split.
      - intros msg [= <-]. exists x. split; [reflexivity|]. unfold resolves. now rewrite Ga.
      - exists []. repeat split. cbn. now rewrite app_nil_r. }
  unfold mbind at 1, M_bind at 1, lift at 1.
  destruct (truth self a) as [[|]|e0] eqn:Tr.
  - (* invoked *)
    unfold mbind at 1, M_bind at 1, record at 1.
    set (s1 := mkT _ _ _ _).
    destruct (decide (a = BoundMethod m_transform)) as [->|Ha].
    + apply getattr_transform_inv in Ga. specialize (Hx Ga).
      destruct (Hrec s1 Hx) as (e & steps & s' & E & (F1 & F2 & F3) & Hn).
      cbn [call]. unfold mbind, M_bind. rewrite E.
      eexists _, _. split; [reflexivity|]. split; [|discriminate].
      intros e' [= <-]. split.
      * now apply (names_unresolved_frame self s1 e).
      * exists (x :: steps). repeat split; [exact F1 | exact F2 |].
        rewrite F3. subst s1. cbn. now rewrite <- app_assoc.
    + destruct (call rec_transform a s1) as [r s'] eqn:E.
      destruct (call_outcome _ _ _ _ _ Ha E) as [(F1 & F2 & F3) G].
      exists r, s'. split; [reflexivity|]. split.
      * intros e ->. split.
        -- intros msg ->. now destruct (G _ eq_refl msg).
        -- exists [x]. repeat split; [exact F1 | exact F2 | exact F3].
      * intros ->. split; [repeat split; [exact F1 | exact F2 | exact F3]|].
        split; [|reflexivity].
        intros ->. rewrite getattr_transform in Ga. now injection Ga as <-.
  - eexists _, _. split; [reflexivity|]. split; [|discriminate].
    intros e [= <-]. split.
    + intros msg [= <-]. exists x. split; [reflexivity|]. unfold resolves. now rewrite Ga, Tr.
    + exists []. repeat split. cbn. now rewrite app_nil_r.
  - eexists _, _. split; [reflexivity|]. split; [|discriminate].
    intros e [= <-]. split.
    + intros msg ->. now destruct (truth_error _ _ _ Tr msg).
    + exists []. repeat split. cbn. now rewrite app_nil_r.
Qed.

Lemma predefined_loop rec_transform (Hrec : reentry_fails rec_transform) l :
  forall self,
    ("transform" ∈ l -> "transform" ∈ func_strs self) ->
    exists r steps s',
      for_each l (dispatch rec_transform) self = (r, s') /\
      steps_only self s' steps /\
      (forall e, r = Raise e -> names_unresolved self e) /\
      (r = Ok tt ->
         steps = l /\ ("transform" ∉ l) /\ Forall (fun x => resolves self x = true) l).
Proof.
  induction l as [|x l IH]; intros self Hl.
  - exists (Ok tt), [], self. split; [reflexivity|]. split.
    + repeat split. cbn. now rewrite app_nil_r.
    + split; [discriminate|]. intros _. split; [reflexivity|].
      split; [apply not_elem_of_nil | constructor].
  - rewrite for_each_cons.
    destruct (dispatch_outcome rec_transform Hrec x self) as (r1 & s1 & E1 & Hraise & Hok).
    { intros ->. apply Hl. left. }
    rewrite E1. destruct r1 as [[]|e].
    + destruct (Hok eq_refl) as ((F1 & F2 & F3) & Hx & Hres).
      destruct (IH s1) as (r & steps & s' & E & (G1 & G2 & G3) & Hr & Ho).
      { intros Hin. rewrite F1. apply Hl. now right. }
      exists r, (x :: steps), s'. split; [exact E|]. split.
      * repeat split; [congruence | congruence |].
        rewrite G3, F3. cbn. now rewrite <- app_assoc.
      * split.
        -- intros e He. apply (names_unresolved_frame self s1 e F1 F2). now apply Hr.
        -- intros Hrok. destruct (Ho Hrok) as (-> & Hnot & Hall).
           split; [reflexivity|]. split.
           ++ rewrite not_elem_of_cons. split; [congruence | exact Hnot].
           ++ constructor; [exact Hres|].
              eapply Forall_impl; [exact Hall|]. cbn. intros t Ht.
              now rewrite <- (resolves_frame self s1 t F1 F2).
    + destruct (Hraise e eq_refl) as (Hn & steps & Hs).
      exists (Raise e), steps, s1. split; [reflexivity|]. split; [exact Hs|].
      split; [|discriminate]. now intros e' [= <-].
Qed.

(** Once "transform" is among the configured names, every activation of
    the dispatcher raises before it reaches the customized functions. *)
Lemma transform_reentry d : reentry_fails (transform d).
Proof.
  induction d as [|d IH]; intros self Hin.
  - exists RecursionError, [], self. split; [reflexivity|]. split.
    + repeat split. cbn. now rewrite app_nil_r.
    + intros msg. discriminate.
  - rewrite transform_S. unfold run_predefined. unfold mbind at 1, M_bind at 1, get_self at 1.
    destruct (predefined_loop (transform d) IH (func_strs self) self (fun H => H))
      as (r & steps & s' & E & Hs & Hr & Ho).
    rewrite E. destruct r as [[]|e].
    + destruct (Ho eq_refl) as (_ & Hnot & _). now destruct Hnot.
    + exists e, steps, s'. split; [reflexivity|]. split; [exact Hs | now apply Hr].
Qed.

(** *** The second loop *)

Lemma customized_loop fs :
  forall a self,
    exists r k s',
      for_each (zip (seq a (length fs)) fs) apply_func self = (r, s') /\
      func_strs s' = func_strs self /\ funcs s' = funcs self /\
      calls s' = calls self ++ (Func <$> seq a k) /\ k <= length fs /\
      match chain fs (data_frame self) with
      | Ok out => r = Ok tt /\ data_frame s' = out /\ k = length fs
      | Raise e => r = Raise e
      end.
Proof.
  induction fs as [|f fs IH]; intros a self.
  - exists (Ok tt), 0, self. cbn. rewrite app_nil_r. now repeat split.
  - cbn [length seq zip zip_with chain]. rewrite for_each_cons.
    unfold apply_func at 1. munfold.
    destruct (f (data_frame self)) as [df'|e] eqn:Ef.
    + set (s1 := mkT df' _ _ _).
      destruct (IH (S a) s1) as (r & k & s' & E & F1 & F2 & F3 & Hk & Hc).
      exists r, (S k), s'. split; [exact E|].
      split; [exact F1|]. split; [exact F2|]. split.
      * rewrite F3. subst s1. cbn. now rewrite <- app_assoc.
      * split; [lia|]. subst s1. cbn [data_frame] in Hc.
        destruct (chain fs df'); [|exact Hc].
        destruct Hc as (-> & Hd & ->). now repeat split.
    + exists (Raise e), 1, (mkT (data_frame self) (func_strs self) (funcs self)
                              (calls self ++ [Func a])).
      cbn. repeat split. lia.
Qed.

(** *** Names and messages *)

Lemma string_length_app (a b : string) :
  String.length (a +:+ b) = String.length a + String.length b.
Proof.
  induction a as [|c a IH]; [reflexivity|].
  change (S (String.length (a +:+ b)) = S (String.length a + String.length b)).
  now rewrite IH.
Qed.

Lemma string_app_inv_tail (a b c : string) : a +:+ c = b +:+ c -> a = b.
Proof.
  revert b. induction a as [|x a IH]; intros [|y b] H.
  - reflexivity.
  - change (c = String y (b +:+ c)) in H.
    apply (f_equal String.length) in H. cbn in H. rewrite string_length_app in H. lia.
  - change (String x (a +:+ c) = c) in H.
    apply (f_equal String.length) in H. cbn in H. rewrite string_length_app in H. lia.
  - change (String x (a +:+ c) = String y (b +:+ c)) in H.
    injection H as -> H. f_equal. now apply IH.
Qed.

Lemma not_available_inj (t u : string) : not_available t = not_available u -> t = u.
Proof. apply string_app_inv_tail. Qed.

Lemma method_of_name_inv name m : method_of_name name = Some m -> name = method_name m.
Proof.
  unfold method_of_name.
  repeat match goal with
         | |- context [String.eqb ?a ?b] => destruct (String.eqb_spec a b)
         end; try discriminate; intros [= <-]; assumption.
Qed.

Lemma getattr_method_inv name m :
  getattr name = Some (BoundMethod m) -> name = method_name m.
Proof.
  unfold getattr.
  repeat match goal with
         | |- context [String.eqb ?a ?b] => destruct (String.eqb a b)
         end; try discriminate.
  destruct (method_of_name name) as [m'|] eqn:E.
  - intros [= ->]. now apply method_of_name_inv.
  - destruct (object_attr name); discriminate.
Qed.

(** A name line 81 turns down raises the configuration error on the
    spot: nothing is invoked and the instance is as it was. *)
Lemma dispatch_unresolved rec_transform s self :
  resolves self s = false ->
  dispatch rec_transform s self =
    (Raise (DataTransformerException (not_available s)), self).
Proof.
  unfold resolves, dispatch. unfold mbind at 1, M_bind at 1, get_self at 1.
  destruct (getattr s) as [a|]; [|reflexivity].
  unfold mbind at 1, M_bind at 1, lift at 1.
  destruct (truth self a) as [[|]|e]; [discriminate | reflexivity | discriminate].
Qed.

(** Where a failing [create_labels] stopped is decided by the CPU-time
    creator: when it raises, that is the exception and nothing was
    assigned; when it returns labels, they have been assigned and stay,
    and the exception is that of the peak-memory creator on the frame so
    extended. *)
Lemma create_labels_failure self e s' :
  create_labels self = (Raise e, s') ->
  match apply_rows (label_with "CPUTimeLabelCreator.label" cpu_time_label) (data_frame self) with
  | Raise e' => e = e' /\ s' = self
  | Ok labels =>
      s' = mkT (setitem CPU_TIME_LABEL labels (data_frame self))
               (func_strs self) (funcs self) (calls self) /\
      apply_rows (label_with "PeakMemoryLabelCreator.label" peak_memory_label)
                 (setitem CPU_TIME_LABEL labels (data_frame self)) = Raise e
  end.
Proof.
  destruct self as [df fs gs cs]. cbn [data_frame func_strs funcs calls].
  unfold create_labels, create_cpu_time_label, create_peak_memory_label. munfold.
  destruct (apply_rows (label_with "CPUTimeLabelCreator.label" cpu_time_label) df)
    as [labels|e1].
  - cbn [data_frame func_strs funcs calls].
    destruct (apply_rows (label_with "PeakMemoryLabelCreator.label" peak_memory_label)
                (setitem CPU_TIME_LABEL labels df)) as [labels2|e2].
    + discriminate.
    + intros [= <- <-]. now split.
  - intros [= <- <-]. now split.
Qed.

(** A failing pass of the loop body over a name other than "transform". *)
Lemma dispatch_failure rec_transform s self e s' :
  s <> "transform" ->
  dispatch rec_transform s self = (Raise e, s') ->
  func_strs s' = func_strs self /\ funcs s' = funcs self /\
  (calls s' = calls self \/ calls s' = calls self ++ [Step s]) /\
  (s <> "create_labels" -> data_frame s' = data_frame self) /\
  (s = "create_labels" ->
     calls s' = calls self ++ [Step s] /\
     match apply_rows (label_with "CPUTimeLabelCreator.label" cpu_time_label)
                      (data_frame self) with
     | Raise e' => e = e' /\ data_frame s' = data_frame self
     | Ok labels =>
         data_frame s' = setitem CPU_TIME_LABEL labels (data_frame self) /\
         apply_rows (label_with "PeakMemoryLabelCreator.label" peak_memory_label)
                    (data_frame s') = Raise e
     end).
Proof.
  intros Hs.
  assert (Hcl : s = "create_labels" -> getattr s = Some (BoundMethod m_create_labels))
    by (intros ->; reflexivity).
  unfold dispatch. unfold mbind at 1, M_bind at 1, get_self at 1.
  destruct (getattr s) as [a|] eqn:Ga.
  2:{ unfold raise. intros [= <- <-].
      split; [reflexivity|]. split; [reflexivity|]. split; [now left|].
      split; [reflexivity|]. intros H. now specialize (Hcl H). }
  unfold mbind at 1, M_bind at 1, lift at 1.
  destruct (truth self a) as [[|]|e0] eqn:Tr.
  2:{ unfold raise. intros [= <- <-].
      split; [reflexivity|]. split; [reflexivity|]. split; [now left|].
      split; [reflexivity|]. intros H. specialize (Hcl H).
      injection Hcl as ->. discriminate Tr. }
  2:{ intros [= <- <-].
      split; [reflexivity|]. split; [reflexivity|]. split; [now left|].
      split; [reflexivity|]. intros H. specialize (Hcl H).
      injection Hcl as ->. discriminate Tr. }
  unfold mbind at 1, M_bind at 1, record at 1. set (s1 := mkT _ _ _ _).
  assert (Ha : a <> BoundMethod m_transform).
  { intros ->. now apply getattr_method_inv in Ga. }
  destruct (decide (a = BoundMethod m_create_labels)) as [->|Hc].
  - cbn [call]. unfold mbind, M_bind.
    destruct (create_labels s1) as [[x|e1] s2] eqn:E; [discriminate|].
    intros [= <- <-].
    destruct (create_labels_outcome _ _ _ E) as [(F1 & F2 & F3) _].
    split; [exact F1|]. split; [exact F2|]. split; [right; exact F3|].
    split.
    + intros Hne. apply getattr_method_inv in Ga. now destruct Hne.
    + intros _. split; [exact F3|].
      apply create_labels_failure in E. subst s1. cbn [data_frame func_strs funcs calls] in E.
      destruct (apply_rows (label_with "CPUTimeLabelCreator.label" cpu_time_label)
                  (data_frame self)) as [labels|e'].
      * destruct E as [-> E]. cbn [data_frame]. now split.
      * destruct E as [-> ->]. now split.
  - intros E.
    assert (Hst : s' = s1).
    { revert E. destruct a as [| | |m|o]; cbn [call]; unfold raise.
      1-3: now intros [= _ <-].
      - assert (Hsa : forall m0 : M DataFrame, single_assignment m0 ->
                  (m0;; mret tt) s1 = (Raise e, s') -> s' = s1).
        { intros m0 Hm. unfold mbind, M_bind.
          destruct (m0 s1) as [[x|e1] s2] eqn:E0; [discriminate|].
          intros [= _ <-]. now destruct (Hm _ _ _ E0) as [_ G], (G _ eq_refl). }
        destruct m.
        + now intros [= _ <-].
        + now destruct Ha.
        + now destruct Hc.
        + apply Hsa, create_cpu_time_label_single.
        + apply Hsa, create_peak_memory_label_single.
        + apply Hsa, drop_failed_queries_single.
        + apply Hsa, to_lower_queries_single.
        + apply Hsa, select_training_columns_single.
      - destruct (oa_call o); [now intros [= _ <-] | discriminate]. }
    subst s'. subst s1. cbn. split; [reflexivity|]. split; [reflexivity|].
    split; [now right|]. split; [reflexivity|].
    intros ->. destruct Hc.
    assert (G : getattr "create_labels" = Some (BoundMethod m_create_labels)) by reflexivity.
    rewrite G in Ga. now injection Ga as <-.
Qed.

(* ===================================================================== *)
(** ** The claims                                                         *)
(* ===================================================================== *)

(** C10. With no predefined name and no customized function, [transform]
    returns the held frame as it is and raises nothing; the instance is
    left as it was. (The call itself is one activation, hence [S d].) *)
Theorem transform_without_steps_is_identity d df cs :
  transform (S d) (mkT df [] [] cs) = (Ok df, mkT df [] [] cs).
Proof. rewrite transform_S. reflexivity. Qed.

(** C4. On a frame whose column labels are distinct, [transform]
    configured with the single predefined transformer
    [drop_failed_queries] returns: the frame with the same header and
    exactly the rows whose state cell equals "FINISHED", in their order,
    when the frame has the state column; the frame unchanged when it has
    not. In both cases it returns and does not raise. *)
Theorem transform_drop_failed_queries_only d df cs :
  NoDup (columns df) ->
  let df' := match get_loc QUERY_STATE_COLUMN (columns df) with
             | Some i =>
                 mkDF (columns df) (filter (fun r => cell i r = VStr "FINISHED") (rows df))
             | None => df
             end in
  transform (S d) (mkT df ["drop_failed_queries"] [] cs) =
    (Ok df', mkT df' ["drop_failed_queries"] [] (cs ++ [Step "drop_failed_queries"])).
Proof.
  intros Hnd. cbn zeta. rewrite transform_S. unfold run_predefined.
  unfold mbind at 1, M_bind at 1, get_self at 1. cbn [func_strs].
  rewrite for_each_cons. unfold dispatch.
  unfold mbind at 1, M_bind at 1, get_self at 1.
  assert (G : getattr "drop_failed_queries" = Some (BoundMethod m_drop_failed_queries))
    by reflexivity.
  rewrite G. cbn [truth]. unfold lift at 1. unfold mbind at 1, M_bind at 1.
  unfold mbind at 1, M_bind at 1, record at 1. cbn [call data_frame func_strs funcs calls].
  unfold mbind at 1, M_bind at 1. rewrite drop_failed_queries_spec by exact Hnd.
  cbn zeta. cbn [data_frame func_strs funcs calls]. reflexivity.
Qed.

(** The cell a lower-casing pass writes is a fixed point of the pass, for
    a [str.lower] that is idempotent on strings. *)
Lemma lower_cell_idem i (r : list value) :
  (forall s, str_lower (str_lower s) = str_lower s) ->
  let g := fun r : list value => <[i := lower_value str_lower (cell i r)]> r in
  g (g r) = g r.
Proof.
  intros Hidem. cbn zeta. destruct (decide (i < length r)) as [Hlt|Hge].
  - assert (E : forall v, cell i (<[i := v]> r) = v).
    { intros v. unfold cell. now rewrite list_lookup_insert_eq by exact Hlt. }
    rewrite E, lower_value_idem by exact Hidem. apply list_insert_insert_eq.
  - rewrite (list_insert_ge r) by lia. apply list_insert_ge. lia.
Qed.

(** The column a lower-casing pass leaves is the old column, cell by cell
    through [lower_value]. *)
Lemma lowered_column i (l : list (list value)) :
  cell i <$> ((fun r => <[i := lower_value str_lower (cell i r)]> r) <$> l) =
  lower_value str_lower <$> (cell i <$> l).
Proof.
  rewrite <- !list_fmap_compose. apply list_fmap_ext. intros k r _. cbn.
  destruct (decide (i < length r)) as [Hlt|Hge].
  - unfold cell at 1. now rewrite list_lookup_insert_eq by exact Hlt.
  - rewrite list_insert_ge by lia. unfold cell. now rewrite lookup_ge_None_2 by lia.
Qed.

(** C7. For a [str.lower] that is idempotent on strings, and an instance
    whose frame has the query column: applying [to_lower_queries] to the
    instance its first application left gives the same outcome and leaves
    the same instance, so the second application changes nothing. (When
    the first application raises, it has left the instance as it was, and
    so does the second.) When the query column is a column of text, the
    first application returns. *)
Theorem to_lower_queries_idempotent self :
  (forall s, str_lower (str_lower s) = str_lower s) ->
  contains QUERY_COLUMN (data_frame self) = true ->
  to_lower_queries (snd (to_lower_queries self)) = to_lower_queries self /\
  (text_column QUERY_COLUMN (data_frame self) = true ->
   exists df1,
     to_lower_queries self =
       (Ok df1, mkT df1 (func_strs self) (funcs self) (calls self))).
Proof.
  intros Hidem _. split.
  - pose proof (to_lower_queries_outcome self) as E. cbn zeta in E.
    destruct (get_loc QUERY_COLUMN (columns (data_frame self))) as [i|] eqn:Hi.
    2:{ now rewrite E. }
    destruct (get_loc QUERY_COLUMN (drop (S i) (columns (data_frame self)))) eqn:Hu.
    { now rewrite E. }
    destruct (has_str_accessor untyped_has_str (cell i <$> rows (data_frame self))) eqn:Ht.
    2:{ now rewrite E. }
    rewrite E. cbn [snd].
    rewrite (to_lower_queries_accessor _ i); cbn [data_frame func_strs funcs calls columns rows].
    + cbn zeta. cbn [data_frame func_strs funcs calls columns rows].
      rewrite <- list_fmap_compose.
      rewrite (list_fmap_ext _ (fun r : list value => <[i := lower_value str_lower (cell i r)]> r)
                 (rows (data_frame self))); [reflexivity|].
      intros k r _. apply (lower_cell_idem i r Hidem).
    + exact Hi.
    + exact Hu.
    + rewrite lowered_column. now apply lowered_has_str_accessor.
  - intros Htext. apply text_column_loc in Htext as (i & Hi & Hu & Ht).
    eexists. apply (to_lower_queries_spec self i Hi Hu Ht).
Qed.

(** [select_training_columns] raises [KeyError] of the tuple on every
    instance, and leaves it as it was. *)
Lemma select_training_columns_raises self :
  select_training_columns self =
    (Raise (KeyError (KTuple [QUERY_COLUMN; CPU_TIME_LABEL; PEAK_MEMORY_LABEL])), self).
Proof. destruct self. reflexivity. Qed.

(** C1, as the code has it. When the configured names contain one that
    line 81 turns down, the run raises, and the dispatcher has invoked
    predefined transformers only, never a customized function. The names
    before the first such name are dispatched first: when they all return,
    leaving the instance [s1], the run raises the
    [DataTransformerException] that carries the name, the instance is left
    as [s1] (the frame those transformers produced is held), and the
    history holds exactly the invocations of those names: neither the
    name turned down nor any later name or function is invoked. *)
Theorem unresolved_name_aborts d self pre s post :
  func_strs self = pre ++ s :: post ->
  resolves self s = false ->
  (exists e steps s',
     transform (S d) self = (Raise e, s') /\ steps_only self s' steps) /\
  (forall s1,
     for_each pre (dispatch (transform d)) self = (Ok tt, s1) ->
     transform (S d) self = (Raise (DataTransformerException (not_available s)), s1) /\
     calls s1 = calls self ++ (Step <$> pre)).
Proof.
  intros Hcfg Hs. split.
  - rewrite transform_S. unfold run_predefined. unfold mbind at 1, M_bind at 1, get_self at 1.
    destruct (predefined_loop (transform d) (transform_reentry d) (func_strs self) self
                (fun H => H)) as (r & steps & s' & E & Hst & _ & Ho).
    rewrite E. destruct r as [[]|e].
    + destruct (Ho eq_refl) as (_ & _ & Hall).
      rewrite Forall_forall in Hall. rewrite (Hall s) in Hs; [discriminate|].
      rewrite Hcfg. apply elem_of_app. right. left.
    + exists e, steps, s'. now split.
  - intros s1 E1.
    destruct (predefined_loop (transform d) (transform_reentry d) pre self)
      as (r & steps & s' & E & (F1 & F2 & F3) & _ & Ho).
    { intros Hin. rewrite Hcfg. apply elem_of_app. now left. }
    rewrite E1 in E. injection E as <- <-.
    destruct (Ho eq_refl) as (-> & _ & _). split; [|exact F3].
    rewrite transform_S. unfold run_predefined. unfold mbind at 1, M_bind at 1, get_self at 1.
    rewrite Hcfg, for_each_app, E1, for_each_cons.
    rewrite dispatch_unresolved; [reflexivity|].
    now rewrite (resolves_frame self s1 s F1 F2).
Qed.

(** C6. The history of a run of [transform] is a sequence of invocations
    of predefined transformers followed by the invocations of the first
    [k] customized functions in their order, and nothing else; a
    customized function is invoked only when every configured name has
    been dispatched. When the first loop returns with the instance [s1],
    the outcome of the run is that of the customized functions chained in
    order from the frame of [s1]. When the run returns, every configured
    name and every customized function has been invoked and the frame
    returned is the one the instance holds. *)
Theorem customized_after_predefined d self :
  exists r steps k s',
    transform (S d) self = (r, s') /\
    calls s' = calls self ++ (Step <$> steps) ++ (Func <$> seq 0 k) /\
    (0 < k -> steps = func_strs self) /\
    (forall s1, run_predefined (transform d) self = (Ok tt, s1) ->
       r = chain (funcs self) (data_frame s1)) /\
    (forall out, r = Ok out ->
       data_frame s' = out /\ steps = func_strs self /\ k = length (funcs self)).
Proof.
  pose proof (transform_S d self) as ET. rewrite run_predefined_eq in ET.
  destruct (predefined_loop (transform d) (transform_reentry d) (func_strs self) self
              (fun H => H)) as (r1 & steps & s1 & E & (F1 & F2 & F3) & _ & Ho).
  rewrite E in ET. destruct r1 as [[]|e].
  - destruct (Ho eq_refl) as (-> & _ & _).
    unfold run_customized in ET. unfold mbind at 1, M_bind at 1, get_self at 1 in ET.
    unfold enumerate in ET. rewrite F2 in ET.
    destruct (customized_loop (funcs self) 0 s1) as (r2 & k & s2 & E2 & G1 & G2 & G3 & Hk & Hc).
    rewrite E2 in ET.
    destruct (chain (funcs self) (data_frame s1)) as [out|e] eqn:Ec.
    + destruct Hc as (-> & Hd & ->).
      exists (Ok (data_frame s2)), (func_strs self), (length (funcs self)), s2.
      split; [exact ET|]. split; [rewrite G3, F3; now rewrite <- app_assoc|].
      split; [reflexivity|]. split.
      * intros s1' Hp. rewrite run_predefined_eq, E in Hp. injection Hp as <-.
        now rewrite Ec, Hd.
      * intros out' [= <-]. now repeat split.
    + subst r2.
      exists (Raise e), (func_strs self), k, s2.
      split; [exact ET|]. split; [rewrite G3, F3; now rewrite <- app_assoc|].
      split; [reflexivity|]. split.
      * intros s1' Hp. rewrite run_predefined_eq, E in Hp. injection Hp as <-.
        now rewrite Ec.
      * discriminate.
  - exists (Raise e), steps, 0, s1.
    split; [exact ET|]. split; [cbn; now rewrite app_nil_r|].
    split; [lia|]. split; [|discriminate].
    intros s1' Hp. rewrite run_predefined_eq, E in Hp. discriminate.
Qed.

(** C8, as the code has it. When the names before the N-th have been
    dispatched and returned, leaving the instance [s1], and the dispatch of
    the N-th raises, the run raises that exception: nothing is rolled
    back and no later name or function is invoked. Unless the name is
    "transform", the held frame is then the frame of [s1], except for
    "create_labels", which was invoked and assigns twice: when the
    CPU-time creator raises on the frame of [s1], that is the exception
    and the held frame is the frame of [s1]; when it returns labels, the
    exception is that of the peak-memory creator, and the held frame is
    the frame of [s1] with the CPU-time labels assigned: they are kept. *)
Theorem failing_step_keeps_earlier_effects d self pre s post s1 e s2 :
  func_strs self = pre ++ s :: post ->
  for_each pre (dispatch (transform d)) self = (Ok tt, s1) ->
  dispatch (transform d) s s1 = (Raise e, s2) ->
  transform (S d) self = (Raise e, s2) /\
  (s <> "transform" ->
     (calls s2 = calls s1 \/ calls s2 = calls s1 ++ [Step s]) /\
     (s <> "create_labels" -> data_frame s2 = data_frame s1) /\
     (s = "create_labels" ->
        calls s2 = calls s1 ++ [Step s] /\
        match apply_rows (label_with "CPUTimeLabelCreator.label" cpu_time_label)
                         (data_frame s1) with
        | Raise e' => e = e' /\ data_frame s2 = data_frame s1
        | Ok labels =>
            data_frame s2 = setitem CPU_TIME_LABEL labels (data_frame s1) /\
            apply_rows (label_with "PeakMemoryLabelCreator.label" peak_memory_label)
                       (data_frame s2) = Raise e
        end)).
Proof.
  intros Hcfg E1 E2. split.
  - rewrite transform_S. unfold run_predefined. unfold mbind at 1, M_bind at 1, get_self at 1.
    now rewrite Hcfg, for_each_app, E1, for_each_cons, E2.
  - intros Hs. destruct (dispatch_failure _ _ _ _ _ Hs E2) as (_ & _ & Hc & Hd & Hl).
    split; [exact Hc|]. split; [exact Hd | exact Hl].
Qed.

(** C9. For a configured name, the pass of the loop body raises the
    configuration error that carries the name exactly when the instance
    has no attribute of that name or the attribute is falsy. The name
    "transform", which is no transformer of the documentation, is an
    attribute and truthy: its dispatch records the invocation and
    re-enters [transform]. *)
Theorem configuration_error_iff_unresolved d self s :
  s ∈ func_strs self ->
  (fst (dispatch (transform d) s self) = Raise (DataTransformerException (not_available s))
   <-> (getattr s = None \/ exists a, getattr s = Some a /\ truth self a = Ok false)) /\
  getattr "transform" = Some (BoundMethod m_transform) /\
  truth self (BoundMethod m_transform) = Ok true /\
  dispatch (transform d) "transform" self =
    (record (Step "transform");; transform d;; mret tt) self.
Proof.
  intros Hin. split; [|now repeat split]. split.
  - intros Hr.
    destruct (dispatch_outcome (transform d) (transform_reentry d) s self)
      as (r & s' & E & Hraise & _).
    { now intros <-. }
    rewrite E in Hr. cbn [fst] in Hr.
    destruct (Hraise _ Hr) as [Hn _].
    destruct (Hn _ eq_refl) as (t & Ht & Hres).
    apply not_available_inj in Ht as <-.
    revert Hres. unfold resolves.
    destruct (getattr s) as [a|]; [|now left].
    destruct (truth self a) as [[|]|e0] eqn:Tr; [discriminate | | discriminate].
    intros _. right. now exists a.
  - intros H. rewrite dispatch_unresolved; [reflexivity|].
    unfold resolves. destruct H as [->|(a & -> & ->)]; reflexivity.
Qed.

(** *** Label creation *)









(** *** The end-to-end run *)

(** A name that resolves to a truthy attribute is recorded and called. *)
Lemma dispatch_resolved rec_transform s a self :
  getattr s = Some a -> truth self a = Ok true ->
  dispatch rec_transform s self =
    call rec_transform a
         (mkT (data_frame self) (func_strs self) (funcs self) (calls self ++ [Step s])).
Proof.
  intros Ga Tr. unfold dispatch. unfold mbind at 1, M_bind at 1, get_self at 1.
  rewrite Ga. unfold mbind at 1, M_bind at 1, lift at 1. rewrite Tr.
  unfold mbind at 1, M_bind at 1, record at 1. reflexivity.
Qed.

(** C3, with the names the class defines. On a frame of 5 rows with
    distinct column labels, the state column and the query column, 3 of
    the rows in state "FINISHED" and each of these with a string as its
    query text, [transform] configured with "drop_failed_queries" and
    then "to_lower_queries" returns a frame with the same header and
    exactly 3 rows: the finished rows in their order, each with its query
    text lower-cased by [str.lower] and every other cell as it was. *)
Theorem drop_failed_then_lower d df cs i j :
  NoDup (columns df) ->
  get_loc QUERY_STATE_COLUMN (columns df) = Some i ->
  get_loc QUERY_COLUMN (columns df) = Some j ->
  length (rows df) = 5 ->
  length (filter (fun r => cell i r = VStr "FINISHED") (rows df)) = 3 ->
  Forall (fun r => exists q, r !! j = Some (VStr q))
         (filter (fun r => cell i r = VStr "FINISHED") (rows df)) ->
  exists out,
    transform (S d) (mkT df ["drop_failed_queries"; "to_lower_queries"] [] cs) =
      (Ok out, mkT out ["drop_failed_queries"; "to_lower_queries"] []
                   (cs ++ [Step "drop_failed_queries"; Step "to_lower_queries"])) /\
    columns out = columns df /\
    length (rows out) = 3 /\
    Forall2 (fun r r' =>
               length r' = length r /\
               (forall k, k <> j -> r' !! k = r !! k) /\
               (forall q, r !! j = Some (VStr q) -> r' !! j = Some (VStr (str_lower q))))
            (filter (fun r => cell i r = VStr "FINISHED") (rows df)) (rows out).
Proof.
  intros Hnd Hi Hj _ H3 Htext.
  set (kept := filter (fun r => cell i r = VStr "FINISHED") (rows df)) in *.
  assert (Hstr : existsb is_str (cell j <$> kept) = true).
  { destruct kept as [|r0 kept']; [discriminate H3|].
    apply Forall_cons_1 in Htext as [[q Hq] _]. cbn. unfold cell. now rewrite Hq. }
  exists (mkDF (columns df) ((fun r => <[j := lower_value str_lower (cell j r)]> r) <$> kept)).
  split; [|split; [reflexivity|split]].
  - rewrite transform_S, run_predefined_eq. cbn [func_strs].
    rewrite for_each_cons.
    rewrite (dispatch_resolved _ _ (BoundMethod m_drop_failed_queries)) by reflexivity.
    cbn [call data_frame func_strs funcs calls].
    unfold mbind at 1, M_bind at 1. rewrite drop_failed_queries_spec by exact Hnd.
    cbn zeta. cbn [data_frame func_strs funcs calls]. rewrite Hi. fold kept.
    unfold mret at 1, M_ret at 1. cbv beta iota. rewrite for_each_cons.
    rewrite (dispatch_resolved _ _ (BoundMethod m_to_lower_queries)) by reflexivity.
    cbn [call data_frame func_strs funcs calls].
    unfold mbind at 1, M_bind at 1.
    rewrite (to_lower_queries_spec _ j);
      [| exact Hj | exact (get_loc_unique _ _ _ Hnd Hj) | exact Hstr].
    cbn zeta. cbn [data_frame func_strs funcs calls columns rows].
    rewrite <- app_assoc. reflexivity.
  - cbn [rows]. now rewrite length_fmap.
  - cbn [rows]. apply Forall2_fmap_r, Forall_Forall2_diag, Forall_forall.
    intros r _. split; [apply length_insert|]. split.
    + intros k Hk. now apply list_lookup_insert_ne.
    + intros q Hq. unfold cell. rewrite Hq. cbn.
      apply list_lookup_insert_eq. now apply lookup_lt_Some in Hq.
Qed.

(* ===================================================================== *)
(** ** Further properties of the transformers                             *)
(* ===================================================================== *)

(** *** Filtering and lower-casing *)

Lemma filter_twice {A : Type} (P : A -> Prop) `{forall x, Decision (P x)} (l : list A) :
  filter P (filter P l) = filter P l.
Proof.
  induction l as [|x l IH]; [reflexivity|].
  destruct (decide (P x)) as [Hx|Hx].
  - rewrite (filter_cons_True P x l Hx), (filter_cons_True P x _ Hx). now f_equal.
  - now rewrite (filter_cons_False P x l Hx).
Qed.

Lemma filter_fmap_stable {A : Type} (P : A -> Prop) `{forall x, Decision (P x)}
      (g : A -> A) (l : list A) :
  (forall x, P (g x) <-> P x) -> filter P (g <$> l) = g <$> filter P l.
Proof.
  intros Hg. induction l as [|x l IH]; [reflexivity|].
  rewrite fmap_cons. destruct (decide (P x)) as [Hx|Hx].
  - rewrite (filter_cons_True P x l Hx), filter_cons_True by now apply Hg.
    rewrite fmap_cons. now f_equal.
  - rewrite (filter_cons_False P x l Hx), filter_cons_False; [exact IH|].
    intros Hgx. now apply Hx, Hg.
Qed.

Lemma get_loc_distinct c c' cols i k :
  get_loc c cols = Some i -> get_loc c' cols = Some k -> c <> c' -> i <> k.
Proof.
  intros Hi Hk Hne ->. apply get_loc_lookup in Hi, Hk. congruence.
Qed.

Lemma cell_insert_ne i k v (r : list value) : i <> k -> cell k (<[i := v]> r) = cell k r.
Proof. intros H. unfold cell. now rewrite list_lookup_insert_ne. Qed.

Lemma cell_insert_lower i (r : list value) :
  cell i (<[i := lower_value str_lower (cell i r)]> r) = lower_value str_lower (cell i r).
Proof.
  destruct (decide (i < length r)) as [Hlt|Hge].
  - unfold cell at 1. now rewrite list_lookup_insert_eq by exact Hlt.
  - rewrite list_insert_ge by lia. unfold cell. now rewrite lookup_ge_None_2 by lia.
Qed.

(** A row with a string under the column makes the column hold a string. *)
Lemma column_holds_text j (l : list (list value)) r q :
  r ∈ l -> r !! j = Some (VStr q) -> existsb is_str (cell j <$> l) = true.
Proof.
  intros Hr Hq. apply existsb_exists. exists (VStr q). split; [|reflexivity].
  apply list_elem_of_In, list_elem_of_fmap. exists r. split; [|exact Hr].
  unfold cell. now rewrite Hq.
Qed.

(** X1. On a frame whose column labels are distinct,
    [drop_failed_queries] returns, and applying it again to what it left
    changes nothing. *)
Theorem drop_failed_queries_idempotent self :
  NoDup (columns (data_frame self)) ->
  exists df1,
    let s1 := mkT df1 (func_strs self) (funcs self) (calls self) in
    drop_failed_queries self = (Ok df1, s1) /\ drop_failed_queries s1 = (Ok df1, s1).
Proof.
  intros Hnd. eexists. cbn zeta. split; [now apply drop_failed_queries_spec|].
  destruct (get_loc QUERY_STATE_COLUMN (columns (data_frame self))) as [i|] eqn:Hi.
  - rewrite drop_failed_queries_spec by exact Hnd.
    cbn zeta. cbn [data_frame func_strs funcs calls columns rows].
    rewrite Hi. now rewrite filter_twice.
  - rewrite drop_failed_queries_spec by exact Hnd.
    cbn zeta. cbn [data_frame func_strs funcs calls]. now rewrite Hi.
Qed.

(** X2. The outcomes of [to_lower_queries]. Without the query column it
    raises [KeyError] of the label. When the label occurs more than once,
    so that the subscript gives a frame, and when the query column holds
    numbers and no string, it raises [AttributeError]. On a column of
    text it returns. Whenever it raises, the exception is a [KeyError] or
    an [AttributeError] and the instance is left as it was. *)
Theorem to_lower_queries_raises_or_returns self :
  let df := data_frame self in
  (contains QUERY_COLUMN df = false ->
   to_lower_queries self = (Raise (KeyError (KStr QUERY_COLUMN)), self)) /\
  (forall f,
     subscript QUERY_COLUMN df = Ok (Frame f) ->
     to_lower_queries self =
       (Raise (AttributeError "'DataFrame' object has no attribute 'str'"), self)) /\
  (forall queries,
     subscript QUERY_COLUMN df = Ok (Series queries) ->
     existsb is_str queries = false ->
     existsb is_int queries = true ->
     to_lower_queries self =
       (Raise (AttributeError "Can only use .str accessor with string values!"), self)) /\
  (text_column QUERY_COLUMN df = true ->
   exists df1 s1, to_lower_queries self = (Ok df1, s1)) /\
  (forall e s', to_lower_queries self = (Raise e, s') ->
     s' = self /\ ((exists k, e = KeyError k) \/ (exists msg, e = AttributeError msg))).
Proof.
  cbn zeta. pose proof (to_lower_queries_outcome self) as E. cbn zeta in E.
  split; [|split; [|split; [|split]]].
  - unfold contains.
    destruct (get_loc QUERY_COLUMN (columns (data_frame self))); [discriminate | now intros _].
  - intros f. unfold subscript.
    destruct (get_loc QUERY_COLUMN (columns (data_frame self))) as [i|]; [|discriminate].
    destruct (get_loc QUERY_COLUMN (drop (S i) (columns (data_frame self))));
      [now intros _ | discriminate].
  - intros queries. unfold subscript.
    destruct (get_loc QUERY_COLUMN (columns (data_frame self))) as [i|]; [|discriminate].
    destruct (get_loc QUERY_COLUMN (drop (S i) (columns (data_frame self))));
      [discriminate|].
    intros [= <-] Hs Hn. unfold has_str_accessor in E. rewrite Hs, Hn in E.
    rewrite E. now destruct untyped_has_str.
  - intros Htext. apply text_column_loc in Htext as (i & Hi & Hu & Ht).
    eexists _, _. apply (to_lower_queries_spec self i Hi Hu Ht).
  - intros e s'. rewrite E.
    destruct (get_loc QUERY_COLUMN (columns (data_frame self))) as [i|].
    + destruct (get_loc QUERY_COLUMN (drop (S i) (columns (data_frame self)))).
      * intros [= <- <-]. split; [reflexivity | right; eauto].
      * destruct (has_str_accessor untyped_has_str (cell i <$> rows (data_frame self)));
          [discriminate|].
        intros [= <- <-]. split; [reflexivity | right; eauto].
    + intros [= <- <-]. split; [reflexivity | left; eauto].
Qed.

(** Writing a cell at a position the mask leaves out does not show in
    the selection. *)
Lemma compress_insert_false {A : Type} (m : list bool) : forall i (v : A) (l : list A),
  m !! i = Some false -> compress m (<[i := v]> l) = compress m l.
Proof.
  induction m as [|b m IH]; intros i v l Hm; [destruct l; reflexivity|].
  destruct l as [|x l]; [reflexivity|].
  destruct i as [|i]; cbn in Hm.
  - injection Hm as ->. reflexivity.
  - change (<[S i := v]> (x :: l)) with (x :: <[i := v]> l).
    cbn [compress]. rewrite (IH i v l Hm). reflexivity.
Qed.

(** X3. On a frame whose query column is a column of text,
    [to_lower_queries] returns a frame with the same header and rows of
    the same lengths, in which the subscript by the query label gives the
    old query column lower-cased by [str.lower], cell by cell, and the
    subscript by any other label gives what it gave before. *)
Theorem to_lower_queries_touches_query_column_only self :
  text_column QUERY_COLUMN (data_frame self) = true ->
  exists df1 s1 queries,
    to_lower_queries self = (Ok df1, s1) /\
    subscript QUERY_COLUMN (data_frame self) = Ok (Series queries) /\
    subscript QUERY_COLUMN df1 = Ok (Series (str_lower_series str_lower queries)) /\
    columns df1 = columns (data_frame self) /\
    Forall2 (fun r r' => length r' = length r) (rows (data_frame self)) (rows df1) /\
    forall c, c <> QUERY_COLUMN -> subscript c df1 = subscript c (data_frame self).
Proof.
  intros Htext. apply text_column_loc in Htext as (i & Hi & Hu & Ht).
  eexists _, _, _. split; [apply (to_lower_queries_spec self i Hi Hu Ht)|].
  cbn zeta. unfold subscript. cbn [columns rows]. rewrite Hi, Hu.
  split; [reflexivity|]. split; [|split; [reflexivity|split]].
  - do 2 f_equal. unfold str_lower_series. apply lowered_column.
  - apply Forall2_fmap_r, Forall_Forall2_diag, Forall_forall.
    intros r _. apply length_insert.
  - intros c Hc. destruct (get_loc c (columns (data_frame self))) as [k|] eqn:Hk;
      [|reflexivity].
    destruct (get_loc c (drop (S k) (columns (data_frame self)))).
    + do 3 f_equal. rewrite <- list_fmap_compose. apply list_fmap_ext. intros p r _. cbn.
      apply compress_insert_false. rewrite list_lookup_fmap, (get_loc_lookup _ _ _ Hi). cbn.
      f_equal. now apply String.eqb_neq.
    + do 2 f_equal. rewrite <- list_fmap_compose. apply list_fmap_ext. intros n r _. cbn.
      apply cell_insert_ne. apply (get_loc_distinct _ _ _ _ _ Hi Hk). congruence.
Qed.

(** X4. On a frame with distinct column labels that has the state column
    and the query column, these being different columns, and a finished
    row whose query text is a string: dropping the failed queries and
    lower-casing the queries both return, with the same frame and the
    same instance left, in either order. *)
Theorem drop_failed_and_lower_commute self i j :
  QUERY_COLUMN <> QUERY_STATE_COLUMN ->
  NoDup (columns (data_frame self)) ->
  get_loc QUERY_STATE_COLUMN (columns (data_frame self)) = Some i ->
  get_loc QUERY_COLUMN (columns (data_frame self)) = Some j ->
  (exists r q, r ∈ rows (data_frame self) /\ cell i r = VStr "FINISHED" /\
               r !! j = Some (VStr q)) ->
  (drop_failed_queries;; to_lower_queries) self =
  (to_lower_queries;; drop_failed_queries) self /\
  exists out s', (drop_failed_queries;; to_lower_queries) self = (Ok out, s').
Proof.
  intros Hne. destruct self as [df fs gs cs]. cbn [data_frame].
  intros Hnd Hi Hj (r & q & Hr & Hfin & Hq).
  set (kept := filter (fun r => cell i r = VStr "FINISHED") (rows df)).
  assert (Hkept : existsb is_str (cell j <$> kept) = true).
  { apply (column_holds_text j kept r q); [|exact Hq].
    apply list_elem_of_filter. now split. }
  assert (Hall : existsb is_str (cell j <$> rows df) = true)
    by now apply (column_holds_text j (rows df) r q).
  pose proof (get_loc_unique _ _ _ Hnd Hj) as Hu.
  assert (EL : (drop_failed_queries;; to_lower_queries) (mkT df fs gs cs) =
               (Ok (mkDF (columns df)
                         ((fun r => <[j := lower_value str_lower (cell j r)]> r) <$> kept)),
                mkT (mkDF (columns df)
                          ((fun r => <[j := lower_value str_lower (cell j r)]> r) <$> kept))
                    fs gs cs)).
  { unfold mbind, M_bind. rewrite drop_failed_queries_spec by exact Hnd.
    cbn zeta. cbn [data_frame func_strs funcs calls]. rewrite Hi. fold kept.
    now rewrite (to_lower_queries_spec _ j) by assumption. }
  split; [|eexists _, _; exact EL].
  rewrite EL. unfold mbind, M_bind.
  rewrite (to_lower_queries_spec (mkT df fs gs cs) j) by assumption.
  cbn zeta. cbn [data_frame func_strs funcs calls].
  rewrite drop_failed_queries_spec by exact Hnd.
  cbn zeta. cbn [data_frame func_strs funcs calls columns rows]. rewrite Hi.
  rewrite (filter_fmap_stable (fun r => cell i r = VStr "FINISHED")); [reflexivity|].
  intros r0. rewrite cell_insert_ne; [reflexivity|].
  apply (get_loc_distinct _ _ _ _ _ Hj Hi Hne).
Qed.

(** *** Assigning a column *)

Lemma map_result_length {A B : Type} (f : A -> result B) (l : list A) ys :
  map_result f l = Ok ys -> length ys = length l.
Proof.
  revert ys. induction l as [|x l IH]; intros ys; cbn.
  - now intros [= <-].
  - destruct (f x); [|discriminate].
    destruct (map_result f l) as [ys'|]; [|discriminate].
    intros [= <-]. cbn. now rewrite (IH ys' eq_refl).
Qed.

Lemma apply_rows_length f df labels :
  apply_rows f df = Ok labels -> length labels = length (rows df).
Proof.
  unfold apply_rows. intros H. apply map_result_length in H. now rewrite length_fmap in H.
Qed.








Lemma extends_refl df : extends df df.
Proof. split; [reflexivity|]. split; [lia | trivial]. Qed.

Lemma extends_trans df1 df2 df3 : extends df1 df2 -> extends df2 df3 -> extends df1 df3.
Proof.
  intros (P1 & L1 & A1) (P2 & L2 & A2). split; [now transitivity (columns df2)|].
  split; [lia | auto].
Qed.

Lemma setitem_extends c s df :
  length s = length (rows df) -> extends df (setitem c s df).
Proof.
  intros Hlen. unfold setitem.
  destruct (get_loc c (columns df)) as [i|]; (split; [|split]); cbn [columns rows].
  - reflexivity.
  - rewrite length_zip_with. lia.
  - unfold aligned. cbn [columns rows]. rewrite !Forall_forall. intros Hal r' Hr'.
    apply elem_of_lookup_zip_with in Hr' as (n & r & v & -> & Hr & _).
    rewrite length_insert. apply Hal. now apply list_elem_of_lookup_2 in Hr.
  - now apply prefix_app_r.
  - rewrite length_zip_with. lia.
  - unfold aligned. cbn [columns rows]. rewrite !Forall_forall. intros Hal r' Hr'.
    apply elem_of_lookup_zip_with in Hr' as (n & r & v & -> & Hr & _).
    rewrite !length_app. cbn. f_equal. apply Hal. now apply list_elem_of_lookup_2 in Hr.
Qed.

(** *** The label columns *)




(** *** What the predefined transformers never do *)

Lemma drop_failed_queries_extends self r s' :
  drop_failed_queries self = (r, s') -> extends (data_frame self) (data_frame s').
Proof.
  rewrite drop_failed_queries_outcome. cbn zeta.
  destruct (get_loc QUERY_STATE_COLUMN (columns (data_frame self))) as [i|];
    [|intros [= _ <-]; apply extends_refl].
  destruct (get_loc QUERY_STATE_COLUMN (drop (S i) (columns (data_frame self))));
    intros [= _ <-]; [apply extends_refl|]. cbn [data_frame].
  split; [reflexivity|]. cbn [columns rows]. split; [apply length_filter|].
  unfold aligned. cbn [columns rows]. rewrite !Forall_forall. intros Hal r' Hr'.
  apply list_elem_of_filter in Hr' as [_ Hr']. now apply Hal.
Qed.

Lemma to_lower_queries_extends self r s' :
  to_lower_queries self = (r, s') -> extends (data_frame self) (data_frame s').
Proof.
  rewrite to_lower_queries_outcome. cbn zeta.
  destruct (get_loc QUERY_COLUMN (columns (data_frame self))) as [i|];
    [|intros [= _ <-]; apply extends_refl].
  destruct (get_loc QUERY_COLUMN (drop (S i) (columns (data_frame self))));
    [intros [= _ <-]; apply extends_refl|].
  destruct (has_str_accessor untyped_has_str (cell i <$> rows (data_frame self)));
    intros [= _ <-]; [|apply extends_refl]. cbn [data_frame].
  split; [reflexivity|]. cbn [columns rows]. split; [now rewrite length_fmap|].
  unfold aligned. cbn [columns rows]. rewrite !Forall_forall. intros Hal r' Hr'.
  apply list_elem_of_fmap in Hr' as (r0 & -> & Hr0). rewrite length_insert. now apply Hal.
Qed.

Lemma create_cpu_time_label_extends self r s' :
  create_cpu_time_label self = (r, s') -> extends (data_frame self) (data_frame s').
Proof.
  destruct self as [df fs gs cs]. unfold create_cpu_time_label. munfold.
  destruct (apply_rows _ df) as [labels|e] eqn:E; intros [= _ <-]; cbn [data_frame].
  - apply setitem_extends. now apply apply_rows_length in E.
  - apply extends_refl.
Qed.

Lemma create_peak_memory_label_extends self r s' :
  create_peak_memory_label self = (r, s') -> extends (data_frame self) (data_frame s').
Proof.
  destruct self as [df fs gs cs]. unfold create_peak_memory_label. munfold.
  destruct (apply_rows _ df) as [labels|e] eqn:E; intros [= _ <-]; cbn [data_frame].
  - apply setitem_extends. now apply apply_rows_length in E.
  - apply extends_refl.
Qed.

Lemma create_labels_extends self r s' :
  create_labels self = (r, s') -> extends (data_frame self) (data_frame s').
Proof.
  unfold create_labels. unfold mbind at 1, M_bind at 1.
  destruct (create_cpu_time_label self) as [[df1|e1] s1] eqn:E1.
  - apply create_cpu_time_label_extends in E1.
    unfold mbind at 1, M_bind at 1.
    destruct (create_peak_memory_label s1) as [[df2|e2] s2] eqn:E2;
      apply create_peak_memory_label_extends in E2.
    + unfold get_df. intros [= _ <-]. now apply (extends_trans _ (data_frame s1)).
    + intros [= _ <-]. now apply (extends_trans _ (data_frame s1)).
  - apply create_cpu_time_label_extends in E1. now intros [= _ <-].
Qed.

(** Calling anything but the bound method [transform] extends the frame. *)
Lemma call_extends rec_transform a self r s' :
  a <> BoundMethod m_transform ->
  call rec_transform a self = (r, s') ->
  extends (data_frame self) (data_frame s').
Proof.
  intros Ha.
  assert (Hs : forall m : M DataFrame,
            (forall r0 s0, m self = (r0, s0) -> extends (data_frame self) (data_frame s0)) ->
            (m;; mret tt) self = (r, s') -> extends (data_frame self) (data_frame s')).
  { intros m Hm. unfold mbind, M_bind. destruct (m self) as [[x|e] s1] eqn:E.
    - unfold mret, M_ret. intros [= _ <-]. now apply (Hm _ _ eq_refl).
    - intros [= _ <-]. now apply (Hm _ _ eq_refl). }
  destruct a as [| | |m|o]; cbn [call]; unfold raise.
  1-3: intros [= _ <-]; apply extends_refl.
  - destruct m.
    + intros [= _ <-]. apply extends_refl.
    + now destruct Ha.
    + apply Hs. intros r0 s0. apply create_labels_extends.
    + apply Hs. intros r0 s0. apply create_cpu_time_label_extends.
    + apply Hs. intros r0 s0. apply create_peak_memory_label_extends.
    + apply Hs. intros r0 s0. apply drop_failed_queries_extends.
    + apply Hs. intros r0 s0. apply to_lower_queries_extends.
    + apply Hs. intros r0 s0. rewrite select_training_columns_raises.
      intros [= _ <-]. apply extends_refl.
  - destruct (oa_call o); unfold mret, M_ret; intros [= _ <-]; apply extends_refl.
Qed.

Lemma dispatch_extends rec_transform x self r s' :
  x <> "transform" ->
  dispatch rec_transform x self = (r, s') ->
  extends (data_frame self) (data_frame s') /\
  func_strs s' = func_strs self.
Proof.
  intros Hx. unfold dispatch. unfold mbind at 1, M_bind at 1, get_self at 1.
  destruct (getattr x) as [a|] eqn:Ga.
  2:{ unfold raise. intros [= _ <-]. split; [apply extends_refl | reflexivity]. }
  unfold mbind at 1, M_bind at 1, lift at 1.
  destruct (truth self a) as [[|]|e0].
  2,3: unfold raise; intros [= _ <-]; (split; [apply extends_refl | reflexivity]).
  unfold mbind at 1, M_bind at 1, record at 1. set (s1 := mkT _ _ _ _).
  assert (Ha : a <> BoundMethod m_transform).
  { intros ->. now apply getattr_method_inv in Ga. }
  intros E. split.
  - now apply (call_extends _ _ _ _ _ Ha E).
  - now destruct (call_outcome _ _ _ _ _ Ha E) as [(F1 & _) _].
Qed.

(** X7. When "transform" is not among the configured names, the first
    loop, however it ends, leaves a frame that extends the one it started
    from: no predefined transformer drops or moves a column or adds a
    row, and rows with one cell per column stay so. (In particular
    "select_training_columns" never narrows the frame.) *)
Theorem predefined_steps_extend_frame rec_transform self r s1 :
  "transform" ∉ func_strs self ->
  run_predefined rec_transform self = (r, s1) ->
  extends (data_frame self) (data_frame s1).
Proof.
  rewrite run_predefined_eq. generalize (func_strs self) as l.
  intros l. revert self. induction l as [|x l IH]; intros self Hnot.
  - cbn. unfold mret, M_ret. intros [= _ <-]. apply extends_refl.
  - apply not_elem_of_cons in Hnot as [Hx Hl]. rewrite for_each_cons.
    destruct (dispatch rec_transform x self) as [[[]|e] s0] eqn:E;
      destruct (dispatch_extends _ _ _ _ _ (not_eq_sym Hx) E) as [He _].
    + intros E'. apply (extends_trans _ (data_frame s0)); [exact He|].
      now apply IH.
    + now intros [= _ <-].
Qed.

(** *** Re-entering the dispatcher *)

(** X8. A configuration that names "transform" never returns: at every
    depth the run raises, the dispatcher has invoked predefined
    transformers only and no customized function, and when the exception
    is the configuration error it names a string that did not resolve. *)
Theorem transform_as_step_never_returns d self :
  "transform" ∈ func_strs self ->
  exists e steps s',
    transform d self = (Raise e, s') /\
    func_strs s' = func_strs self /\ funcs s' = funcs self /\
    calls s' = calls self ++ (Step <$> steps) /\
    (forall msg, e = DataTransformerException msg ->
       exists t, msg = not_available t /\ resolves self t = false).
Proof.
  intros Hin. destruct (transform_reentry d self Hin) as (e & steps & s' & E & Hs & Hn).
  destruct Hs as (F1 & F2 & F3). exists e, steps, s'. now repeat split.
Qed.

(** X9. Configured with the name "transform" alone, a run of depth [d]
    raises [RecursionError] after [d] nested invocations of "transform";
    the frame is untouched and no customized function is invoked. *)
Theorem transform_alone_exhausts_recursion d df fs cs :
  transform d (mkT df ["transform"] fs cs) =
    (Raise RecursionError, mkT df ["transform"] fs (cs ++ replicate d (Step "transform"))).
Proof.
  revert cs. induction d as [|d IH]; intros cs.
  - cbn. unfold raise. now rewrite app_nil_r.
  - rewrite transform_S, run_predefined_eq. cbn [func_strs]. rewrite for_each_cons.
    rewrite (dispatch_resolved _ _ (BoundMethod m_transform)) by reflexivity.
    cbn [call data_frame func_strs funcs calls]. unfold mbind at 1, M_bind at 1.
    rewrite IH. cbn [replicate]. now rewrite <- app_assoc.
Qed.

(** *** A configuration with "select_training_columns" *)

Lemma select_in_loop_raises rec_transform l :
  "select_training_columns" ∈ l ->
  forall self s', for_each l (dispatch rec_transform) self <> (Ok tt, s').
Proof.
  induction l as [|x l IH]; intros Hin self s'; [now apply elem_of_nil in Hin|].
  rewrite for_each_cons. apply elem_of_cons in Hin as [<-|Hin].
  - rewrite (dispatch_resolved _ _ (BoundMethod m_select_training_columns)) by reflexivity.
    cbn [call]. unfold mbind, M_bind. rewrite select_training_columns_raises. discriminate.
  - destruct (dispatch rec_transform x self) as [[[]|e] s1]; [now apply IH | discriminate].
Qed.

(** X12. A configuration that names "select_training_columns" never
    returns a frame: the run raises, whatever the frame and the other
    names are, and no customized function is invoked. *)
Theorem select_training_columns_never_returns d self :
  "select_training_columns" ∈ func_strs self ->
  exists e steps s',
    transform d self = (Raise e, s') /\
    calls s' = calls self ++ (Step <$> steps).
Proof.
  intros Hin. destruct d as [|d].
  - exists RecursionError, [], self. split; [reflexivity|]. cbn. now rewrite app_nil_r.
  - rewrite transform_S, run_predefined_eq.
    destruct (predefined_loop (transform d) (transform_reentry d) (func_strs self) self
                (fun H => H)) as (r & steps & s' & E & (_ & _ & F3) & _ & _).
    rewrite E. destruct r as [[]|e].
    + now destruct (select_in_loop_raises _ _ Hin _ _ E).
    + now exists e, steps, s'.
Qed.

(** *** The customized functions *)

(** The second loop over functions that all return. *)
Lemma customized_loop_returns fs :
  forall a self out,
    chain fs (data_frame self) = Ok out ->
    for_each (zip (seq a (length fs)) fs) apply_func self =
      (Ok tt, mkT out (func_strs self) (funcs self)
                  (calls self ++ (Func <$> seq a (length fs)))).
Proof.
  induction fs as [|f fs IH]; intros a [df ns gs cs] out; cbn [data_frame func_strs funcs calls].
  - cbn. intros [= <-]. unfold mret, M_ret. now rewrite app_nil_r.
  - cbn [length seq zip zip_with chain]. rewrite for_each_cons.
    unfold apply_func at 1. munfold.
    destruct (f df) as [df'|e]; [|discriminate]. intros Hc.
    rewrite (IH (S a) _ out) by exact Hc.
    cbn [data_frame func_strs funcs calls]. rewrite fmap_cons. now rewrite <- app_assoc.
Qed.

Lemma chain_app fs1 fs2 df :
  chain (fs1 ++ fs2) df =
  match chain fs1 df with
  | Ok d1 => chain fs2 d1
  | Raise e => Raise e
  end.
Proof.
  revert df. induction fs1 as [|f fs1 IH]; intros df; [reflexivity|].
  cbn. destruct (f df); [apply IH | reflexivity].
Qed.

(** X10. When the first loop has returned, leaving the instance [s1], and
    the customized functions before [f] return in turn, handing [f] the
    frame [d1] on which it raises: the run raises that exception, the held
    frame is [d1] (the output of the function before [f], not rolled
    back to the input of the run), [f] is the last function invoked and
    the functions after it are not. *)
Theorem failing_custom_function_keeps_previous_output d self s1 fs1 f fs2 d1 e :
  run_predefined (transform d) self = (Ok tt, s1) ->
  funcs self = fs1 ++ f :: fs2 ->
  chain fs1 (data_frame s1) = Ok d1 ->
  f d1 = Raise e ->
  transform (S d) self =
    (Raise e, mkT d1 (func_strs self) (funcs self)
                  (calls s1 ++ (Func <$> seq 0 (S (length fs1))))).
Proof.
  intros E1 Hfs Hc Hf.
  assert (Hfr : func_strs s1 = func_strs self /\ funcs s1 = funcs self).
  { rewrite run_predefined_eq in E1.
    destruct (predefined_loop (transform d) (transform_reentry d) (func_strs self) self
                (fun H => H)) as (r & steps & s' & E & (F1 & F2 & _) & _).
    rewrite E1 in E. injection E as <- <-. now split. }
  destruct Hfr as [F1 F2].
  rewrite transform_S, E1. unfold run_customized.
  unfold mbind at 1, M_bind at 1, get_self at 1. unfold enumerate.
  rewrite F2, Hfs, length_app. cbn [length].
  rewrite seq_app, zip_with_app by now rewrite length_seq.
  rewrite for_each_app, (customized_loop_returns fs1 0 s1 d1 Hc).
  cbn [seq zip_with]. rewrite for_each_cons. unfold apply_func at 1. munfold.
  rewrite Hf, F1, F2, Hfs. cbn [Nat.add].
  change (0 :: seq 1 (length fs1)) with (seq 0 (S (length fs1))).
  rewrite seq_S, fmap_app. cbn [Nat.add]. now rewrite <- app_assoc.
Qed.

Lemma transform_customized_only d df fs cs :
  fst (transform (S d) (mkT df [] fs cs)) = chain fs df.
Proof.
  rewrite transform_S, run_predefined_eq. cbn [func_strs for_each].
  unfold mret at 1, M_ret at 1. unfold run_customized.
  unfold mbind at 1, M_bind at 1, get_self at 1. cbn [funcs]. unfold enumerate.
  destruct (customized_loop fs 0 (mkT df [] fs cs)) as (r & k & s' & E & _ & _ & _ & _ & Hc).
  rewrite E. cbn [data_frame] in Hc.
  destruct (chain fs df) as [out|e].
  - destruct Hc as (-> & <- & _). reflexivity.
  - now subst r.
Qed.

(** X11. Without predefined names, running the customized functions
    [fs1 ++ fs2] in one run gives the outcome of running [fs1] and then,
    on the frame that run returns, [fs2] in a second run; when the first
    run raises, so does the single run, with the same exception. *)
Theorem customized_functions_compose d df fs1 fs2 cs cs' :
  fst (transform (S d) (mkT df [] (fs1 ++ fs2) cs)) =
  match fst (transform (S d) (mkT df [] fs1 cs)) with
  | Ok df1 => fst (transform (S d) (mkT df1 [] fs2 cs'))
  | Raise e => Raise e
  end.
Proof.
  rewrite !transform_customized_only, chain_app.
  destruct (chain fs1 df) as [df1|e]; [|reflexivity].
  now rewrite transform_customized_only.
Qed.

End Transformer.


(* ===================================================================== *)
(** ** Runs in the concrete setting                                       *)
(* ===================================================================== *)

Abbreviation sample_transform :=
  (transform Sample.str_lower Sample.untyped_has_str Sample.QUERY_COLUMN Sample.QUERY_STATE_COLUMN Sample.CPU_TIME_LABEL
             Sample.PEAK_MEMORY_LABEL Sample.cpu_time_label Sample.peak_memory_label
             Sample.object_attr).

Abbreviation sample_dispatch :=
  (dispatch Sample.str_lower Sample.untyped_has_str Sample.QUERY_COLUMN Sample.QUERY_STATE_COLUMN Sample.CPU_TIME_LABEL
            Sample.PEAK_MEMORY_LABEL Sample.cpu_time_label Sample.peak_memory_label
            Sample.object_attr).

(** The lower-casing of the concrete setting is idempotent. *)
Lemma sample_lower_ascii_idem (c : ascii) :
  Sample.lower_ascii (Sample.lower_ascii c) = Sample.lower_ascii c.
Proof. destruct c as [[] [] [] [] [] [] [] []]; reflexivity. Qed.

Lemma sample_str_lower_idem (s : string) :
  Sample.str_lower (Sample.str_lower s) = Sample.str_lower s.
Proof.
  induction s as [|c s IH]; simpl; [reflexivity|].
  now rewrite sample_lower_ascii_idem, IH.
Qed.

(** The column labels of the log of five queries are distinct. *)
Lemma log5_distinct : NoDup (columns Sample.log5).
Proof. apply (bool_decide_unpack _). vm_compute. reflexivity. Qed.

(** C1, the claim as stated fails: with "drop_failed_queries" configured
    before a name that does not resolve, the run raises the
    configuration error only after "drop_failed_queries" has been invoked
    and has replaced the held frame: 3 of the 5 rows are left. *)
Lemma unresolved_name_after_earlier_effect :
  let self := Sample.new Sample.log5 ["drop_failed_queries"; "not-a-real-step"] [] in
  resolves Sample.object_attr self "not-a-real-step" = false /\
  exists s',
    sample_transform 1 self =
      (Raise (DataTransformerException "not-a-real-step is not an available transformer"), s') /\
    calls s' = [Step "drop_failed_queries"] /\
    length (rows (data_frame s')) = 3 /\
    data_frame s' <> data_frame self.
Proof.
  cbv zeta. split; [reflexivity|].
  eexists. split; [vm_compute; reflexivity|].
  split; [reflexivity|]. split; [reflexivity|].
  intros H. apply (f_equal (fun df => length (rows df))) in H. discriminate H.
Qed.

(** The theorem of C1 at a configuration with one name before and one
    after the name that does not resolve. *)
Lemma unresolved_name_aborts_witness :
  let self := Sample.new Sample.log5
                ["drop_failed_queries"; "not-a-real-step"; "to_lower_queries"]
                [fun df => Ok df] in
  func_strs self = ["drop_failed_queries"] ++ "not-a-real-step" :: ["to_lower_queries"] /\
  resolves Sample.object_attr self "not-a-real-step" = false /\
  (exists e steps s',
     sample_transform 1 self = (Raise e, s') /\ steps_only self s' steps) /\
  (forall s1,
     for_each ["drop_failed_queries"] (sample_dispatch (sample_transform 0)) self = (Ok tt, s1) ->
     sample_transform 1 self =
       (Raise (DataTransformerException (not_available "not-a-real-step")), s1) /\
     calls s1 = calls self ++ (Step <$> ["drop_failed_queries"])).
Proof.
  cbv zeta. split; [reflexivity|]. split; [reflexivity|].
  apply (unresolved_name_aborts
           Sample.str_lower Sample.untyped_has_str Sample.QUERY_COLUMN Sample.QUERY_STATE_COLUMN Sample.CPU_TIME_LABEL
           Sample.PEAK_MEMORY_LABEL Sample.cpu_time_label Sample.peak_memory_label
           Sample.object_attr 0 _
           ["drop_failed_queries"] "not-a-real-step" ["to_lower_queries"]);
    reflexivity.
Defined.

(** C2, at a frame that has the three columns: after "create_labels" the
    frame holds the query column and both label columns, and
    "select_training_columns" raises [KeyError] of the tuple, where the
    selection its docstring describes returns the three columns. *)
Lemma select_training_columns_after_create_labels :
  let self := Sample.new Sample.log5 ["create_labels"; "select_training_columns"] [] in
  exists s',
    sample_transform 1 self =
      (Raise (KeyError (KTuple ["query"; "cpu_time_label"; "peak_memory_label"])), s') /\
    columns (data_frame s') =
      ["query_id"; "query"; "query_state"; "cpu_time_ms"; "peak_memory_bytes";
       "cpu_time_label"; "peak_memory_label"] /\
    exists out,
      select_training_columns_documented
        Sample.QUERY_COLUMN Sample.CPU_TIME_LABEL Sample.PEAK_MEMORY_LABEL (data_frame s')
        = Ok out /\
      columns out = ["query"; "cpu_time_label"; "peak_memory_label"] /\
      length (rows out) = 5.
Proof.
  cbv zeta. eexists. split; [vm_compute; reflexivity|].
  split; [reflexivity|].
  eexists. split; [vm_compute; reflexivity|]. split; reflexivity.
Qed.

(** C3, the claim as stated fails: the hyphenated strings are no
    attributes of the instance, so the run raises the configuration
    error on the first of them and returns no frame. *)
Lemma hyphenated_names_are_rejected :
  let self := Sample.new Sample.log5 ["drop-failed-queries"; "to-lower-queries"] [] in
  sample_transform 1 self =
    (Raise (DataTransformerException "drop-failed-queries is not an available transformer"),
     self) /\
  ~ exists out s', sample_transform 1 self = (Ok out, s').
Proof.
  cbv zeta. split; [vm_compute; reflexivity|].
  intros (out & s' & H). vm_compute in H. discriminate H.
Qed.

(** The theorem of C3 at the log of five queries. *)
Lemma drop_failed_then_lower_witness :
  NoDup (columns Sample.log5) /\
  get_loc Sample.QUERY_STATE_COLUMN (columns Sample.log5) = Some 2 /\
  get_loc Sample.QUERY_COLUMN (columns Sample.log5) = Some 1 /\
  length (rows Sample.log5) = 5 /\
  length (filter (fun r => cell 2 r = VStr "FINISHED") (rows Sample.log5)) = 3 /\
  Forall (fun r => exists q, r !! 1 = Some (VStr q))
         (filter (fun r => cell 2 r = VStr "FINISHED") (rows Sample.log5)) /\
  exists out,
    sample_transform 1 (mkT Sample.log5 ["drop_failed_queries"; "to_lower_queries"] [] []) =
      (Ok out, mkT out ["drop_failed_queries"; "to_lower_queries"] []
                   ([] ++ [Step "drop_failed_queries"; Step "to_lower_queries"])) /\
    columns out = columns Sample.log5 /\
    length (rows out) = 3 /\
    Forall2 (fun r r' =>
               length r' = length r /\
               (forall k, k <> 1 -> r' !! k = r !! k) /\
               (forall q, r !! 1 = Some (VStr q) ->
                          r' !! 1 = Some (VStr (Sample.str_lower q))))
            (filter (fun r => cell 2 r = VStr "FINISHED") (rows Sample.log5)) (rows out).
Proof.
  assert (Htext : Forall (fun r : list value => exists q, r !! 1 = Some (VStr q))
                         (filter (fun r => cell 2 r = VStr "FINISHED") (rows Sample.log5))).
  { change (filter (fun r => cell 2 r = VStr "FINISHED") (rows Sample.log5))
      with [ [ VStr "q1"; VStr "SELECT * FROM Orders"; VStr "FINISHED"; VInt 1200; VInt 4096 ];
             [ VStr "q3"; VStr "Select Count(*) From T"; VStr "FINISHED"; VInt 45000;
               VInt 2097152 ];
             [ VStr "q5"; VStr "select a, B from u WHERE C = 'X'"; VStr "FINISHED"; VInt 800;
               VInt 512 ] ].
    repeat (constructor; [eexists; reflexivity|]). constructor. }
  split; [exact log5_distinct|].
  split; [reflexivity|]. split; [reflexivity|]. split; [reflexivity|]. split; [reflexivity|].
  split; [exact Htext|].
  apply (drop_failed_then_lower
           Sample.str_lower Sample.untyped_has_str Sample.QUERY_COLUMN Sample.QUERY_STATE_COLUMN Sample.CPU_TIME_LABEL
           Sample.PEAK_MEMORY_LABEL Sample.cpu_time_label Sample.peak_memory_label
           Sample.object_attr 0 Sample.log5 [] 2 1);
    [exact log5_distinct | reflexivity | reflexivity | reflexivity | reflexivity | exact Htext].
Defined.

(** The theorem of C4 at the log of five queries: the three finished
    queries are left. *)
Lemma transform_drop_failed_queries_only_witness :
  NoDup (columns Sample.log5) /\
  let df' := match get_loc Sample.QUERY_STATE_COLUMN (columns Sample.log5) with
             | Some i =>
                 mkDF (columns Sample.log5)
                      (filter (fun r => cell i r = VStr "FINISHED") (rows Sample.log5))
             | None => Sample.log5
             end in
  sample_transform 1 (mkT Sample.log5 ["drop_failed_queries"] [] []) =
    (Ok df', mkT df' ["drop_failed_queries"] [] ([] ++ [Step "drop_failed_queries"])).
Proof.
  split; [exact log5_distinct|].
  apply (transform_drop_failed_queries_only
           Sample.str_lower Sample.untyped_has_str Sample.QUERY_COLUMN Sample.QUERY_STATE_COLUMN Sample.CPU_TIME_LABEL
           Sample.PEAK_MEMORY_LABEL Sample.cpu_time_label Sample.peak_memory_label
           Sample.object_attr 0 Sample.log5 []).
  exact log5_distinct.
Defined.


(** The theorem of C7 at the log of five queries, whose query column is
    a column of text, with the lower-casing of the concrete setting. *)
Lemma to_lower_queries_idempotent_witness :
  let self := Sample.new Sample.log5 [] [] in
  (forall s, Sample.str_lower (Sample.str_lower s) = Sample.str_lower s) /\
  contains Sample.QUERY_COLUMN (data_frame self) = true /\
  text_column Sample.QUERY_COLUMN (data_frame self) = true /\
  to_lower_queries Sample.str_lower Sample.untyped_has_str Sample.QUERY_COLUMN
                   (snd (to_lower_queries Sample.str_lower Sample.untyped_has_str Sample.QUERY_COLUMN self)) =
    to_lower_queries Sample.str_lower Sample.untyped_has_str Sample.QUERY_COLUMN self /\
  exists df1,
    to_lower_queries Sample.str_lower Sample.untyped_has_str Sample.QUERY_COLUMN self =
      (Ok df1, mkT df1 (func_strs self) (funcs self) (calls self)).
Proof.
  cbv zeta.
  split; [exact sample_str_lower_idem|]. split; [reflexivity|]. split; [reflexivity|].
  destruct (to_lower_queries_idempotent
              Sample.str_lower Sample.untyped_has_str Sample.QUERY_COLUMN (Sample.new Sample.log5 [] [])
              sample_str_lower_idem eq_refl) as [Hsame Hreturns].
  split; [exact Hsame | exact (Hreturns eq_refl)].
Defined.

(** C8, the claim as stated fails: on a log without the peak-memory
    metric the single configured step "create_labels" raises in its
    second assignment, and the held frame is not the frame as it was
    before the step: it has the CPU-time label column. *)
Lemma create_labels_failure_keeps_cpu_labels :
  let self := Sample.new Sample.log_no_memory ["create_labels"] [] in
  exists s2,
    sample_transform 1 self = (Raise (External "PeakMemoryLabelCreator.label"), s2) /\
    calls s2 = [Step "create_labels"] /\
    columns (data_frame s2) = ["query"; "cpu_time_ms"; "cpu_time_label"] /\
    data_frame s2 <> data_frame self.
Proof.
  cbv zeta. eexists. split; [vm_compute; reflexivity|].
  split; [reflexivity|]. split; [reflexivity|].
  intros H. apply (f_equal (fun df => length (columns df))) in H. discriminate H.
Qed.

(** The theorem of C8 where "create_labels" fails as the second of three
    configured names: the CPU-time creator returns its labels, the
    peak-memory creator raises, and the frame left has the CPU-time label
    column. *)
Lemma failing_step_keeps_earlier_effects_witness :
  let self := Sample.new Sample.log_no_memory
                ["to_lower_queries"; "create_labels"; "drop_failed_queries"] [] in
  let s1 := snd (for_each ["to_lower_queries"] (sample_dispatch (sample_transform 0)) self) in
  let s2 := snd (sample_dispatch (sample_transform 0) "create_labels" s1) in
  let e := External "PeakMemoryLabelCreator.label" in
  func_strs self = ["to_lower_queries"] ++ "create_labels" :: ["drop_failed_queries"] /\
  for_each ["to_lower_queries"] (sample_dispatch (sample_transform 0)) self = (Ok tt, s1) /\
  sample_dispatch (sample_transform 0) "create_labels" s1 = (Raise e, s2) /\
  apply_rows (label_with "CPUTimeLabelCreator.label" Sample.cpu_time_label) (data_frame s1)
    = Ok [VInt 0; VInt 1] /\
  columns (data_frame s1) = ["query"; "cpu_time_ms"] /\
  columns (data_frame s2) = ["query"; "cpu_time_ms"; "cpu_time_label"] /\
  sample_transform 1 self = (Raise e, s2) /\
  ("create_labels" <> "transform" ->
     (calls s2 = calls s1 \/ calls s2 = calls s1 ++ [Step "create_labels"]) /\
     ("create_labels" <> "create_labels" -> data_frame s2 = data_frame s1) /\
     ("create_labels" = "create_labels" ->
        calls s2 = calls s1 ++ [Step "create_labels"] /\
        match apply_rows (label_with "CPUTimeLabelCreator.label" Sample.cpu_time_label)
                         (data_frame s1) with
        | Raise e' => e = e' /\ data_frame s2 = data_frame s1
        | Ok labels =>
            data_frame s2 = setitem Sample.CPU_TIME_LABEL labels (data_frame s1) /\
            apply_rows (label_with "PeakMemoryLabelCreator.label" Sample.peak_memory_label)
                       (data_frame s2) = Raise e
        end)).
Proof.
  cbv zeta. split; [reflexivity|]. split; [vm_compute; reflexivity|].
  split; [vm_compute; reflexivity|]. split; [vm_compute; reflexivity|].
  split; [vm_compute; reflexivity|]. split; [vm_compute; reflexivity|].
  apply (failing_step_keeps_earlier_effects
           Sample.str_lower Sample.untyped_has_str Sample.QUERY_COLUMN Sample.QUERY_STATE_COLUMN Sample.CPU_TIME_LABEL
           Sample.PEAK_MEMORY_LABEL Sample.cpu_time_label Sample.peak_memory_label
           Sample.object_attr 0 _
           ["to_lower_queries"] "create_labels" ["drop_failed_queries"]).
  - reflexivity.
  - vm_compute; reflexivity.
  - vm_compute; reflexivity.
Defined.

(** The theorem of C9 at the name "funcs", an attribute that is an empty
    sequence. *)
Lemma configuration_error_iff_unresolved_witness :
  let self := Sample.new Sample.log5 ["funcs"; "transform"] [] in
  "funcs" ∈ func_strs self /\
  ((fst (sample_dispatch (sample_transform 0) "funcs" self)
      = Raise (DataTransformerException (not_available "funcs"))
    <-> (getattr Sample.object_attr "funcs" = None \/
         exists a, getattr Sample.object_attr "funcs" = Some a /\
                   truth self a = Ok false)) /\
   getattr Sample.object_attr "transform" = Some (BoundMethod m_transform) /\
   truth self (BoundMethod m_transform) = Ok true /\
   sample_dispatch (sample_transform 0) "transform" self =
     (record (Step "transform");; sample_transform 0;; mret tt) self).
Proof.
  cbv zeta. split; [constructor|].
  apply (configuration_error_iff_unresolved
           Sample.str_lower Sample.untyped_has_str Sample.QUERY_COLUMN Sample.QUERY_STATE_COLUMN Sample.CPU_TIME_LABEL
           Sample.PEAK_MEMORY_LABEL Sample.cpu_time_label Sample.peak_memory_label
           Sample.object_attr 0 (Sample.new Sample.log5 ["funcs"; "transform"] []) "funcs").
  constructor.
Defined.

(* ===================================================================== *)
(** ** The further properties in the concrete setting                     *)
(* ===================================================================== *)

Abbreviation sample_run_predefined :=
  (run_predefined Sample.str_lower Sample.untyped_has_str Sample.QUERY_COLUMN Sample.QUERY_STATE_COLUMN Sample.CPU_TIME_LABEL
                  Sample.PEAK_MEMORY_LABEL Sample.cpu_time_label Sample.peak_memory_label
                  Sample.object_attr).


(** X1 at the log of five queries. *)
Lemma drop_failed_queries_idempotent_witness :
  let self := Sample.new Sample.log5 [] [] in
  NoDup (columns (data_frame self)) /\
  exists df1,
    let s1 := mkT df1 (func_strs self) (funcs self) (calls self) in
    drop_failed_queries Sample.QUERY_STATE_COLUMN self = (Ok df1, s1) /\
    drop_failed_queries Sample.QUERY_STATE_COLUMN s1 = (Ok df1, s1).
Proof.
  cbv zeta. split; [exact log5_distinct|].
  apply (drop_failed_queries_idempotent
           Sample.QUERY_STATE_COLUMN (Sample.new Sample.log5 [] [])).
  exact log5_distinct.
Defined.

(** X3 at the log of five queries. *)
Lemma to_lower_queries_touches_query_column_only_witness :
  let self := Sample.new Sample.log5 [] [] in
  text_column Sample.QUERY_COLUMN (data_frame self) = true /\
  exists df1 s1 queries,
    to_lower_queries Sample.str_lower Sample.untyped_has_str Sample.QUERY_COLUMN self = (Ok df1, s1) /\
    subscript Sample.QUERY_COLUMN (data_frame self) = Ok (Series queries) /\
    subscript Sample.QUERY_COLUMN df1 =
      Ok (Series (str_lower_series Sample.str_lower queries)) /\
    columns df1 = columns (data_frame self) /\
    Forall2 (fun r r' => length r' = length r) (rows (data_frame self)) (rows df1) /\
    forall c, c <> Sample.QUERY_COLUMN -> subscript c df1 = subscript c (data_frame self).
Proof.
  cbv zeta. split; [reflexivity|].
  apply (to_lower_queries_touches_query_column_only
           Sample.str_lower Sample.untyped_has_str Sample.QUERY_COLUMN (Sample.new Sample.log5 [] [])).
  reflexivity.
Defined.

(** X4 at the log of five queries. *)
Lemma drop_failed_and_lower_commute_witness :
  let self := Sample.new Sample.log5 [] [] in
  Sample.QUERY_COLUMN <> Sample.QUERY_STATE_COLUMN /\
  NoDup (columns (data_frame self)) /\
  get_loc Sample.QUERY_STATE_COLUMN (columns (data_frame self)) = Some 2 /\
  get_loc Sample.QUERY_COLUMN (columns (data_frame self)) = Some 1 /\
  (exists r q, r ∈ rows (data_frame self) /\ cell 2 r = VStr "FINISHED" /\
               r !! 1 = Some (VStr q)) /\
  (drop_failed_queries Sample.QUERY_STATE_COLUMN;;
   to_lower_queries Sample.str_lower Sample.untyped_has_str Sample.QUERY_COLUMN) self =
  (to_lower_queries Sample.str_lower Sample.untyped_has_str Sample.QUERY_COLUMN;;
   drop_failed_queries Sample.QUERY_STATE_COLUMN) self /\
  exists out s',
    (drop_failed_queries Sample.QUERY_STATE_COLUMN;;
     to_lower_queries Sample.str_lower Sample.untyped_has_str Sample.QUERY_COLUMN) self = (Ok out, s').
Proof.
  cbv zeta.
  assert (Hrow : exists r q, r ∈ rows (data_frame (Sample.new Sample.log5 [] [])) /\
                             cell 2 r = VStr "FINISHED" /\ r !! 1 = Some (VStr q)).
  { eexists _, _. split; [left|]. split; reflexivity. }
  split; [discriminate|]. split; [exact log5_distinct|].
  split; [reflexivity|]. split; [reflexivity|]. split; [exact Hrow|].
  apply (drop_failed_and_lower_commute
           Sample.str_lower Sample.untyped_has_str Sample.QUERY_COLUMN Sample.QUERY_STATE_COLUMN
           (Sample.new Sample.log5 [] []) 2 1);
    [discriminate | exact log5_distinct | reflexivity | reflexivity | exact Hrow].
Defined.



(** X7 at a configuration of three predefined names, the last of which
    raises. *)
Lemma predefined_steps_extend_frame_witness :
  let self := Sample.new Sample.log5
                ["drop_failed_queries"; "create_labels"; "select_training_columns"] [] in
  ("transform" ∉ func_strs self) /\
  extends (data_frame self)
          (data_frame (snd (sample_run_predefined (sample_transform 0) self))).
Proof.
  cbv zeta.
  assert (H : "transform" ∉ ["drop_failed_queries"; "create_labels"; "select_training_columns"]).
  { intros H. repeat (apply elem_of_cons in H as [H|H]; [discriminate H|]).
    now apply elem_of_nil in H. }
  split; [exact H|].
  apply (predefined_steps_extend_frame
           Sample.str_lower Sample.untyped_has_str Sample.QUERY_COLUMN Sample.QUERY_STATE_COLUMN Sample.CPU_TIME_LABEL
           Sample.PEAK_MEMORY_LABEL Sample.cpu_time_label Sample.peak_memory_label
           Sample.object_attr (sample_transform 0) _
           (fst (sample_run_predefined (sample_transform 0)
                   (Sample.new Sample.log5
                      ["drop_failed_queries"; "create_labels"; "select_training_columns"] [])))).
  - exact H.
  - apply surjective_pairing.
Defined.

(** X8 at a configuration with "transform" as its second name. *)
Lemma transform_as_step_never_returns_witness :
  let self := Sample.new Sample.log5 ["drop_failed_queries"; "transform"] [fun df => Ok df] in
  "transform" ∈ func_strs self /\
  exists e steps s',
    sample_transform 3 self = (Raise e, s') /\
    func_strs s' = func_strs self /\ funcs s' = funcs self /\
    calls s' = calls self ++ (Step <$> steps) /\
    (forall msg, e = DataTransformerException msg ->
       exists t, msg = not_available t /\ resolves Sample.object_attr self t = false).
Proof.
  cbv zeta. split; [right; left|].
  apply (transform_as_step_never_returns
           Sample.str_lower Sample.untyped_has_str Sample.QUERY_COLUMN Sample.QUERY_STATE_COLUMN Sample.CPU_TIME_LABEL
           Sample.PEAK_MEMORY_LABEL Sample.cpu_time_label Sample.peak_memory_label
           Sample.object_attr 3).
  right; left.
Defined.

(** X10 with three customized functions: the first keeps one row, the
    second raises, the third is never reached. *)
Lemma failing_custom_function_keeps_previous_output_witness :
  let first_row := fun df => Ok (mkDF (columns df) (take 1 (rows df))) in
  let failing := fun _ : DataFrame => @Raise DataFrame (ValueError "no rows wanted") in
  let self := Sample.new Sample.log5 ["drop_failed_queries"]
                         [first_row; failing; fun df => Ok df] in
  let s1 := snd (sample_run_predefined (sample_transform 0) self) in
  let d1 := mkDF (columns (data_frame s1)) (take 1 (rows (data_frame s1))) in
  sample_transform 1 self =
    (Raise (ValueError "no rows wanted"),
     mkT d1 (func_strs self) (funcs self) (calls s1 ++ (Func <$> seq 0 2))) /\
  length (rows d1) = 1.
Proof.
  cbv zeta. split; [|reflexivity].
  apply (failing_custom_function_keeps_previous_output
           Sample.str_lower Sample.untyped_has_str Sample.QUERY_COLUMN Sample.QUERY_STATE_COLUMN Sample.CPU_TIME_LABEL
           Sample.PEAK_MEMORY_LABEL Sample.cpu_time_label Sample.peak_memory_label
           Sample.object_attr 0 _ _
           [fun df => Ok (mkDF (columns df) (take 1 (rows df)))]
           (fun _ : DataFrame => @Raise DataFrame (ValueError "no rows wanted"))
           [fun df => Ok df]).
  - vm_compute. reflexivity.
  - reflexivity.
  - reflexivity.
  - reflexivity.
Defined.

(** X12 at the configuration of "select_training_columns" alone. *)
Lemma select_training_columns_never_returns_witness :
  let self := Sample.new Sample.log5 ["select_training_columns"] [] in
  "select_training_columns" ∈ func_strs self /\
  exists e steps s',
    sample_transform 1 self = (Raise e, s') /\
    calls s' = calls self ++ (Step <$> steps).
Proof.
  cbv zeta. split; [left|].
  apply (select_training_columns_never_returns
           Sample.str_lower Sample.untyped_has_str Sample.QUERY_COLUMN Sample.QUERY_STATE_COLUMN Sample.CPU_TIME_LABEL
           Sample.PEAK_MEMORY_LABEL Sample.cpu_time_label Sample.peak_memory_label
           Sample.object_attr 1).
  left.
Defined.

